(** * horde_sdk.generic_api.generic_client: marshalling, dispatch, response
    resolution and the recovery handler

  A shallow embedding of [GenericHordeAPIClient] and [HordeRequestHandler]
  (src/horde_sdk/generic_api/generic_client.py).  Python dictionaries that
  the code iterates over are association lists in insertion order; the
  dictionaries it only fills and hands on are finite maps; methods that
  touch the network or the console run in a state-and-exception monad. *)

From Stdlib Require Import ZArith Ascii String.
From stdpp Require Import base option list strings gmap pretty.

Local Open Scope string_scope.
Local Open Scope Z_scope.

#[local] Set Warnings "-register-all".

(** ** Python values and exceptions *)
Module Py.

(** The code applies two operations to the value of a request field:
    the test [is None] and the builtin [str()].  A value of any type other
    than [None], [bool], [int] and [str] (a list, a nested model) is
    represented by the text [str()] gives for it. *)
Inductive pyval : Type :=
| PyNone
| PyBool (b : bool)
| PyInt (n : Z)
| PyStr (s : string)
| PyOther (rendered : string).

Definition is_None (v : pyval) : bool :=
  match v with PyNone => true | _ => false end.

(** [str(v)]. *)
Definition py_str (v : pyval) : string :=
  match v with
  | PyNone => "None"
  | PyBool true => "True"
  | PyBool false => "False"
  | PyInt n => pretty n
  | PyStr s => s
  | PyOther rendered => rendered
  end.

(** What [Response.json()] and [json.loads] produce.  A float is kept as
    the text of its literal; the items of an object are its key/value
    pairs in document order (a decoded object has pairwise distinct keys). *)
Inductive json : Type :=
| JNull
| JBool (b : bool)
| JInt (n : Z)
| JFloat (literal : string)
| JStr (s : string)
| JArr (items : list json)
| JObj (items : list (string * json)).

(** The exceptions the client can raise.  [Unsupported] is not a Python
    exception: it marks an input outside the fragment of the builtins that
    is modelled here. *)
Inductive PyExc : Type :=
| TypeError (msg : string)
| KeyError (key : string)
| ValueError (msg : string)
| RuntimeError (msg : string)
| AttributeError (msg : string)
| ValidationError (diagnostic : string)
| Unsupported (what : string).

Definition is_python_exception (e : PyExc) : bool :=
  match e with
  | Unsupported _ => false
  | _ => true
  end.

Inductive outcome (A : Type) : Type :=
| Returned (a : A)
| Raised (e : PyExc).
Arguments Returned {A} a.
Arguments Raised {A} e.

(** [s.endswith("_")] *)
Fixpoint endswith_underscore (s : string) : bool :=
  match s with
  | EmptyString => false
  | String c EmptyString => Ascii.eqb c "_"
  | String _ rest => endswith_underscore rest
  end.

(** [s[:-1]] *)
Fixpoint drop_last (s : string) : string :=
  match s with
  | EmptyString => EmptyString
  | String _ EmptyString => EmptyString
  | String c rest => String c (drop_last rest)
  end.

(** [needle in haystack] for two strings. *)
Fixpoint str_contains (needle haystack : string) : bool :=
  String.prefix needle haystack ||
  match haystack with
  | EmptyString => false
  | String _ rest => str_contains needle rest
  end.

(** First binding of a key in an association list. *)
Fixpoint assoc {V : Type} (k : string) (items : list (string * V)) : option V :=
  match items with
  | [] => None
  | (k', v) :: rest => if String.eqb k k' then Some v else assoc k rest
  end.

(** [k in d] for a dictionary given by its items. *)
Definition has_key {V : Type} (k : string) (items : list (string * V)) : bool :=
  bool_decide (k ∈ items.*1).

(** [d[k] = v] on a dictionary given by its items: an existing key keeps
    its position, a new key goes last. *)
Fixpoint dict_set {V : Type} (k : string) (v : V) (items : list (string * V))
  : list (string * V) :=
  match items with
  | [] => [(k, v)]
  | (k', v') :: rest =>
      if String.eqb k k' then (k, v) :: rest else (k', v') :: dict_set k v rest
  end.

End Py.

(** ** [str.format_map] *)
Module Format.
Import Py.

(** The scanner is either in literal text or inside a replacement field
    whose name has been read so far. *)
Inductive mode : Type :=
| InText
| InField (name : string).

Definition is_digit (c : ascii) : bool :=
  let n := nat_of_ascii c in (48 <=? n)%nat && (n <=? 57)%nat.

Fixpoint all_digits (s : string) : bool :=
  match s with
  | EmptyString => true
  | String c rest => is_digit c && all_digits rest
  end.

(** An empty or all-digit field name is positional. *)
Definition positional (name : string) : bool := all_digits name.

(** Characters that start an attribute, an index, a conversion or a format
    specification inside a replacement field. *)
Definition starts_suffix (c : ascii) : bool :=
  Ascii.eqb c "." || Ascii.eqb c "[" || Ascii.eqb c "!" || Ascii.eqb c ":".

Definition prepend (pre : string) (r : PyExc + string) : PyExc + string :=
  match r with
  | inl e => inl e
  | inr s => inr (pre +:+ s)
  end.

Definition one (c : ascii) : string := String c EmptyString.

(** [template.format_map(mapping)], left to right as CPython's formatter
    does it: a doubled brace is a literal brace, [{name}] is looked up in
    the mapping when its closing brace is read, so an error in an earlier
    field wins over one further right.  Fields with an attribute, index,
    conversion or format specification are outside the model. *)
Fixpoint scan (mapping : gmap string string) (m : mode) (s : string)
  : PyExc + string :=
  match m with
  | InText =>
      match s with
      | EmptyString => inr EmptyString
      | String c rest =>
          if Ascii.eqb c "{" then
            match rest with
            | EmptyString =>
                inl (ValueError "Single '{' encountered in format string")
            | String c2 rest2 =>
                if Ascii.eqb c2 "{"
                then prepend "{" (scan mapping InText rest2)
                else scan mapping (InField EmptyString) rest
            end
          else if Ascii.eqb c "}" then
            match rest with
            | EmptyString =>
                inl (ValueError "Single '}' encountered in format string")
            | String c2 rest2 =>
                if Ascii.eqb c2 "}"
                then prepend "}" (scan mapping InText rest2)
                else inl (ValueError "Single '}' encountered in format string")
            end
          else prepend (one c) (scan mapping InText rest)
      end
  | InField name =>
      match s with
      | EmptyString => inl (ValueError "expected '}' before end of string")
      | String c rest =>
          if Ascii.eqb c "}" then
            if positional name
            then inl (ValueError "Format string contains positional fields")
            else match mapping !! name with
                 | None => inl (KeyError name)
                 | Some v => prepend v (scan mapping InText rest)
                 end
          else if Ascii.eqb c "{" then
            inl (ValueError "unexpected '{' in field name")
          else if starts_suffix c then
            inl (Unsupported "replacement field with attribute, index, conversion or format spec")
          else scan mapping (InField (name +:+ one c)) rest
      end
  end.

Definition format_map (template : string) (mapping : gmap string string)
  : PyExc + string :=
  scan mapping InText template.

(** The names of the replacement fields of a template, in order; [None]
    when the template is malformed or leaves the modelled fragment. *)
Fixpoint fields_from (m : mode) (s : string) : option (list string) :=
  match m with
  | InText =>
      match s with
      | EmptyString => Some []
      | String c rest =>
          if Ascii.eqb c "{" then
            match rest with
            | EmptyString => None
            | String c2 rest2 =>
                if Ascii.eqb c2 "{" then fields_from InText rest2
                else fields_from (InField EmptyString) rest
            end
          else if Ascii.eqb c "}" then
            match rest with
            | EmptyString => None
            | String c2 rest2 =>
                if Ascii.eqb c2 "}" then fields_from InText rest2 else None
            end
          else fields_from InText rest
      end
  | InField name =>
      match s with
      | EmptyString => None
      | String c rest =>
          if Ascii.eqb c "}" then
            option_map (cons name) (fields_from InText rest)
          else if Ascii.eqb c "{" then None
          else if starts_suffix c then None
          else fields_from (InField (name +:+ one c)) rest
      end
  end.

Definition template_fields (template : string) : option (list string) :=
  fields_from InText template.

(** The errors the formatting step raises on a template of the modelled
    fragment: the spec's FormatError. *)
Definition is_format_error (e : PyExc) : bool :=
  match e with
  | KeyError _ | ValueError _ => true
  | _ => false
  end.

End Format.


(** ** Classes, requests and responses *)
Module Model.
Import Py.

(** A class: its name, the names of its proper ancestors, and (for a
    pydantic model) the names of its fields, [model_fields]. *)
Record PyClass : Type := {
  cls_name : string;
  cls_ancestors : list string;
  model_fields : list string;
}.

(** [issubclass(c, base)] *)
Definition issubclass (c base : PyClass) : bool :=
  bool_decide (cls_name base ∈ cls_name c :: cls_ancestors c).

(** The instance of a response model that parsing a reply produced. *)
Record PyObj : Type := {
  obj_class : PyClass;
  obj_data : json;
}.

(** [isinstance(o, cls)] *)
Definition isinstance (o : PyObj) (cls : PyClass) : bool :=
  issubclass (obj_class o) cls.

(** A response type as the resolver uses it: the class and its classmethod
    [from_dict_or_array], which is declared outside generic_client.py and is
    therefore a component of the value. *)
Record ResponseType : Type := {
  rt_class : PyClass;
  from_dict_or_array : json → outcome PyObj;
}.

(** Modelled from the spec: horde_sdk.consts.HTTPMethod is not among the
    sources; the spec names the verbs GET, POST, PUT, PATCH and DELETE. *)
Inductive HTTPMethod : Type := GET | POST | PUT | PATCH | DELETE.

(** A request object: its class, its instance dictionary [__dict__] in
    field order, the attributes found on the class rather than the instance,
    [model_fields_set], and what its accessor methods return.

    [serialize_field] is the schema library's serialiser for the values of
    the fields, which [model_dump] runs on every field it keeps: given the
    flags [exclude_none] and [exclude_unset], the name of a field and its
    value, it gives the dumped value.  A nested model comes out as the
    dictionary of its own fields, filtered by the same flags; the library is
    outside the sources, so the serialiser is a component of the request. *)
Record BaseRequest : Type := {
  request_class : PyClass;
  __dict__ : list (string * pyval);
  class_attributes : list (string * pyval);
  model_fields_set : gset string;
  serialize_field : bool → bool → string → pyval → pyval;
  get_endpoint_url : string;
  get_header_fields : list string;
  get_http_method : HTTPMethod;
  get_success_response_type : ResponseType;
  is_recovery_enabled : bool;
  get_recovery_request_type : PyClass;
}.

(** The class [BaseRequest] itself, for the [issubclass] test. *)
Definition BaseRequest_class : PyClass :=
  {| cls_name := "BaseRequest"; cls_ancestors := ["BaseModel"; "object"];
     model_fields := [] |}.

(** [getattr(r, name)]: the instance dictionary first, then the class;
    [None] stands for [AttributeError]. *)
Definition getattr (r : BaseRequest) (name : string) : option pyval :=
  match assoc name (__dict__ r) with
  | Some v => Some v
  | None => assoc name (class_attributes r)
  end.

Definition hasattr (r : BaseRequest) (name : string) : bool :=
  match getattr r name with Some _ => true | None => false end.

(** [r.model_dump(exclude_none=.., exclude_unset=.., exclude=..)]: the
    fields in order, without those the three filters drop, each with its
    value as the serialiser dumps it.  The filters look at the field itself:
    its name, whether it was set, whether its value is [None]. *)
Definition model_dump (r : BaseRequest) (exclude_none exclude_unset : bool)
    (exclude : gset string) : list (string * pyval) :=
  map (λ item : string * pyval,
         (item.1, serialize_field r exclude_none exclude_unset item.1 item.2))
    (List.filter
       (λ item : string * pyval,
          (negb exclude_none || negb (is_None item.2))
          && (negb exclude_unset || bool_decide (item.1 ∈ model_fields_set r))
          && negb (bool_decide (item.1 ∈ exclude)))
       (__dict__ r)).

(** What [object_data] of an error response can hold. *)
Inductive payload : Type :=
| RawJson (j : json)
| Caught (e : PyExc)
| Dict (items : list (string * payload)).

(** Modelled from the spec: RequestErrorResponse is declared in
    horde_sdk.generic_api.apimodels, which is not among the sources.  The
    spec gives the Error variant a message string and an optional diagnostic
    payload. *)
Record RequestErrorResponse : Type := {
  message : string;
  object_data : option payload;
}.

(** Modelled from the spec: the constructor of RequestErrorResponse called
    with the keyword arguments unpacked from a dictionary.  The
    schema layer parses into the typed structure and raises on mismatch, and
    the wire error shape is an object whose [message] is a string.  The
    default of an omitted [message] is not part of the spec. *)
Definition RequestErrorResponse_kwargs (kwargs : list (string * json))
  : outcome RequestErrorResponse :=
  match assoc "message" kwargs with
  | Some (JStr s) =>
      Returned {| message := s;
                  object_data := option_map RawJson (assoc "object_data" kwargs) |}
  | Some _ => Raised (ValidationError "message: Input should be a valid string")
  | None => Raised (Unsupported "RequestErrorResponse without a message")
  end.

(** [HordeResponse | RequestErrorResponse] *)
Inductive Response : Type :=
| Success (o : PyObj)
| Error (e : RequestErrorResponse).

End Model.

(** ** Stateful code: a state-and-exception monad

    A computation takes the state, and gives an outcome (a value or a raised
    exception) and the state it leaves behind; the state survives a raise. *)
Module Monad.
Import Py.

Definition PyM (S A : Type) : Type := S → outcome A * S.

#[export] Instance pym_ret {S : Type} : MRet (PyM S) :=
  λ A a s, (Returned a, s).

#[export] Instance pym_bind {S : Type} : MBind (PyM S) :=
  λ A B f m s,
    match m s with
    | (Returned a, s') => f a s'
    | (Raised e, s') => (Raised e, s')
    end.

Definition raise {S A : Type} (e : PyExc) : PyM S A := λ s, (Raised e, s).

Definition read {S A : Type} (f : S → A) : PyM S A := λ s, (Returned (f s), s).

Definition lift {S A : Type} (o : outcome A) : PyM S A := λ s, (o, s).

End Monad.

(** ** class GenericHordeAPIClient *)
Module GenericHordeAPIClient.
Import Py Format Model Monad.

Record _ParsedRequest : Type := {
  endpoint_no_query : string;
  request_headers : gmap string pyval;
  request_queries : gmap string pyval;
  request_params : gmap string pyval;
  request_body : option (list (string * pyval));
}.

(** The client object: for each registry the items of the enum's
    [_member_map_], python field name to [str] of the member (the wire
    name), in definition order. *)
Record client : Type := {
  _header_data_keys : list (string * string);
  _path_data_keys : list (string * string);
  _query_data_keys : list (string * string);
}.

Inductive library : Type := Requests | Aiohttp.

(** One HTTP call as handed to the transport. *)
Record HttpCall : Type := {
  call_via : library;
  call_method : HTTPMethod;
  call_url : string;
  call_headers : gmap string pyval;
  call_params : gmap string pyval;
  call_json : option (list (string * pyval));
  call_allow_redirects : bool;
}.

(** The state the client's methods run in: the object [self], the object
    [api_request], the remote service (status code and decoded body per
    call) and the calls issued so far. *)
Record World : Type := {
  self : client;
  api_request : BaseRequest;
  server : HttpCall → Z * json;
  http_log : list HttpCall;
}.

(** What the verb methods bind to [raw_response]: a [requests.Response],
    or the decoded body that [await response.json()] gives. *)
Inductive RawResponse : Type :=
| RequestsResponse (status_code : Z) (body : json)
| DecodedJson (body : json).

Definition send (c : HttpCall) : PyM World (Z * json) :=
  λ w, (Returned (server w c),
        {| self := self w; api_request := api_request w; server := server w;
           http_log := http_log w ++ [c] |}).

(** [requests.<verb>(url, headers=.., params=.., json=.., allow_redirects=True)] *)
Definition requests_call (method : HTTPMethod) (url : string)
    (headers params : gmap string pyval) (json_ : option (list (string * pyval)))
  : PyM World RawResponse :=
  reply ← send {| call_via := Requests; call_method := method; call_url := url;
                  call_headers := headers; call_params := params;
                  call_json := json_; call_allow_redirects := true |};
  mret (RequestsResponse reply.1 reply.2).

(** [async with aiohttp.ClientSession() as session, session.<verb>(..) as
    response: raw_response = await response.json()] *)
Definition aiohttp_call_json (method : HTTPMethod) (url : string)
    (headers params : gmap string pyval) (json_ : option (list (string * pyval)))
  : PyM World RawResponse :=
  reply ← send {| call_via := Aiohttp; call_method := method; call_url := url;
                  call_headers := headers; call_params := params;
                  call_json := json_; call_allow_redirects := true |};
  mret (DecodedJson reply.2).

(** The inner function of [_validate_and_prepare_request]: a dict
    comprehension over the registry's members. *)
Definition get_specified_data_keys (data_keys : list (string * string))
    (api_request : BaseRequest) : list (string * string) :=
  List.filter
    (λ member : string * string,
       hasattr api_request member.1
       && match getattr api_request member.1 with
          | Some v => negb (is_None v)
          | None => false
          end)
    data_keys.

(** The loop over [specified_paths.items()] that rewrites [endpoint_url]. *)
Fixpoint substitute_paths (api_request : BaseRequest)
    (specified_paths : list (string * string)) (endpoint_url : string)
  : outcome string :=
  match specified_paths with
  | [] => Returned endpoint_url
  | (py_field_name, api_field_name) :: rest =>
      match getattr api_request py_field_name with
      | None => Raised (AttributeError py_field_name)
      | Some v =>
          match format_map endpoint_url {[ api_field_name := py_str v ]} with
          | inl e => Raised e
          | inr endpoint_url' => substitute_paths api_request rest endpoint_url'
          end
      end
  end.

(** The dictionaries the second loop writes to. *)
Record buckets : Type := {
  specified_headers : list (string * string);
  request_params_dict : gmap string pyval;
  request_headers_dict : gmap string pyval;
  request_queries_dict : gmap string pyval;
}.

(** One iteration of the loop over [api_request.__dict__.items()]. *)
Definition classify (specified_paths specified_queries : list (string * string))
    (extra_header_keys : list string) (b : buckets) (item : string * pyval)
  : buckets :=
  let request_key := item.1 in
  let request_value := item.2 in
  if has_key request_key specified_paths then b
  else if has_key request_key (specified_headers b) then
    {| specified_headers := specified_headers b;
       request_params_dict := request_params_dict b;
       request_headers_dict := <[request_key := request_value]> (request_headers_dict b);
       request_queries_dict := request_queries_dict b |}
  else if bool_decide (request_key ∈ extra_header_keys) then
    let api_name :=
      if negb (endswith_underscore request_key) then request_key
      else drop_last request_key in
    {| specified_headers := dict_set request_key api_name (specified_headers b);
       request_params_dict := request_params_dict b;
       request_headers_dict := <[request_key := request_value]> (request_headers_dict b);
       request_queries_dict := request_queries_dict b |}
  else if has_key request_key specified_queries then
    {| specified_headers := specified_headers b;
       request_params_dict := request_params_dict b;
       request_headers_dict := request_headers_dict b;
       request_queries_dict := <[request_key := request_value]> (request_queries_dict b) |}
  else
    {| specified_headers := specified_headers b;
       request_params_dict := <[request_key := request_value]> (request_params_dict b);
       request_headers_dict := request_headers_dict b;
       request_queries_dict := request_queries_dict b |}.

(** The second loop, over [api_request.__dict__.items()], started on empty
    dictionaries. *)
Definition classify_all (specified_headers specified_paths specified_queries
    : list (string * string)) (extra_header_keys : list string)
    (items : list (string * pyval)) : buckets :=
  foldl (classify specified_paths specified_queries extra_header_keys)
        {| specified_headers := specified_headers;
           request_params_dict := ∅;
           request_headers_dict := ∅;
           request_queries_dict := ∅ |}
        items.

(** [all_fields_to_exclude_from_body], the dump of the request without
    them, and the replacement of an empty dump by [None]. *)
Definition body_data (api_request : BaseRequest)
    (specified_headers specified_paths specified_queries : list (string * string))
    (extra_header_keys : list string) : option (list (string * pyval)) :=
  let all_fields_to_exclude_from_body : gset string :=
    list_to_set (specified_headers.*1 ++ specified_paths.*1
                 ++ specified_queries.*1 ++ extra_header_keys) in
  let request_body_data_dict :=
    model_dump api_request true true all_fields_to_exclude_from_body in
  match request_body_data_dict with
  | [] => None
  | _ :: _ => Some request_body_data_dict
  end.

Definition _validate_and_prepare_request : PyM World _ParsedRequest :=
  self ← read self;
  api_request ← read api_request;
  if negb (issubclass (request_class api_request) BaseRequest_class) then
    raise (TypeError "`request` must be of type `BaseRequest` or a subclass of it!")
  else
    let specified_headers := get_specified_data_keys (_header_data_keys self) api_request in
    let specified_paths := get_specified_data_keys (_path_data_keys self) api_request in
    let specified_queries := get_specified_data_keys (_query_data_keys self) api_request in
    endpoint_url ←
      lift (substitute_paths api_request specified_paths (get_endpoint_url api_request));
    let extra_header_keys := get_header_fields api_request in
    let b := classify_all specified_headers specified_paths specified_queries
                          extra_header_keys (__dict__ api_request) in
    mret {| endpoint_no_query := endpoint_url;
            request_headers := request_headers_dict b;
            request_queries := request_queries_dict b;
            request_params := request_params_dict b;
            request_body :=
              body_data api_request (GenericHordeAPIClient.specified_headers b)
                        specified_paths specified_queries extra_header_keys |}.

(** [type(j).__name__] *)
Definition type_name (j : json) : string :=
  match j with
  | JNull => "NoneType"
  | JBool _ => "bool"
  | JInt _ => "int"
  | JFloat _ => "float"
  | JStr _ => "str"
  | JArr _ => "list"
  | JObj _ => "dict"
  end.

(** [raw_response.json()]: only a [requests.Response] has the method. *)
Definition call_json_method (raw_response : RawResponse) : outcome json :=
  match raw_response with
  | RequestsResponse _ body => Returned body
  | DecodedJson body =>
      Raised (AttributeError ("'" +:+ type_name body +:+ "' object has no attribute 'json'"))
  end.

(** [raw_response.status_code] *)
Definition attr_status_code (raw_response : RawResponse) : outcome Z :=
  match raw_response with
  | RequestsResponse status_code _ => Returned status_code
  | DecodedJson body =>
      Raised (AttributeError ("'" +:+ type_name body +:+ "' object has no attribute 'status_code'"))
  end.

(** [len(j)] *)
Definition py_len (j : json) : outcome nat :=
  match j with
  | JObj items => Returned (length items)
  | JArr items => Returned (length items)
  | JStr s => Returned (String.length s)
  | _ => Raised (TypeError ("object of type '" +:+ type_name j +:+ "' has no len()"))
  end.

Definition is_message (j : json) : bool :=
  match j with
  | JStr s => String.eqb s "message"
  | _ => false
  end.

(** ["message" in j] *)
Definition contains_message (j : json) : outcome bool :=
  match j with
  | JObj items => Returned (has_key "message" items)
  | JArr items => Returned (existsb is_message items)
  | JStr s => Returned (str_contains "message" s)
  | _ => Raised (TypeError ("argument of type '" +:+ type_name j +:+ "' is not iterable"))
  end.

(** [len(j) == 1 and "message" in j], the right operand evaluated only when
    the left one holds. *)
Definition len_is_1_and_has_message (j : json) : outcome bool :=
  match py_len j with
  | Raised e => Raised e
  | Returned n => if (n =? 1)%nat then contains_message j else Returned false
  end.

(** The keyword arguments that unpacking [j] with a double star gives. *)
Definition unpack_kwargs (j : json) : outcome (list (string * json)) :=
  match j with
  | JObj items => Returned items
  | _ => Raised (TypeError "argument after ** must be a mapping")
  end.

Definition mismatch_message : string :=
  "The response type doesn't match expected one! See `object_data` for the raw response.".

(** The message of the RuntimeError ends with the rendering of the body,
    which is left out here. *)
Definition no_message_key : string :=
  "Received a non-200 response code, but no `message` key was found in the response: ".

(** [expected_response] is a response class, so [None], the value of
    [handled_response] when the parser raises, is never an instance of it. *)
Definition isinstance_handled (handled_response : option Response)
    (expected_response : PyClass) : bool :=
  match handled_response with
  | Some (Success o) => isinstance o expected_response
  | Some (Error _) => issubclass
      {| cls_name := "RequestErrorResponse";
         cls_ancestors := ["BaseResponse"; "BaseModel"; "object"];
         model_fields := ["message"; "object_data"] |} expected_response
  | None => false
  end.

Definition _after_request_handling (raw_response : RawResponse)
    (expected_response : PyClass) : PyM World Response :=
  api_request ← read api_request;
  let expected_response_type := get_success_response_type api_request in
  raw_response_json ← lift (call_json_method raw_response);
  status_code ← lift (attr_status_code raw_response);
  if 400 <=? status_code then
    single_message ← lift (len_is_1_and_has_message raw_response_json);
    if (single_message : bool) then
      kwargs ← lift (unpack_kwargs raw_response_json);
      e ← lift (RequestErrorResponse_kwargs kwargs);
      mret (Error e)
    else raise (RuntimeError no_message_key)
  else
    let handled_response : option Response := None in
    match from_dict_or_array expected_response_type raw_response_json with
    | Returned parsed_response =>
        if isinstance parsed_response expected_response
        then mret (Success parsed_response)
        else mret (Error {| message := mismatch_message;
                            object_data :=
                              Some (Dict [("raw_response", RawJson raw_response_json)]) |})
    | Raised (ValidationError d) =>
        if negb (isinstance_handled handled_response expected_response) then
          mret (Error {| message := mismatch_message;
                         object_data :=
                           Some (Dict [("exception", Caught (ValidationError d));
                                       ("raw_response", RawJson raw_response_json)]) |})
        else raise (Unsupported "the method returns None")
    | Raised e => raise e
    end.

Definition get (expected_response : PyClass) : PyM World Response :=
  parsed_request ← _validate_and_prepare_request;
  match request_body parsed_request with
  | Some _ =>
      raise (RuntimeError
        "GET requests cannot have a body! This probably means you forgot to override `get_header_fields()`")
  | None =>
      raw_response ← requests_call GET (endpoint_no_query parsed_request)
                        (request_headers parsed_request)
                        (request_queries parsed_request) None;
      _after_request_handling raw_response expected_response
  end.

Definition async_get (expected_response : PyClass) : PyM World Response :=
  parsed_request ← _validate_and_prepare_request;
  match request_body parsed_request with
  | Some _ => raise (RuntimeError "GET requests cannot have a body!")
  | None =>
      raw_response ← aiohttp_call_json GET (endpoint_no_query parsed_request)
                        (request_headers parsed_request)
                        (request_queries parsed_request) None;
      _after_request_handling raw_response expected_response
  end.

(** [post], [put], [patch] and [delete] are one text up to the verb. *)
Definition sync_with_body (method : HTTPMethod) (expected_response : PyClass)
  : PyM World Response :=
  parsed_request ← _validate_and_prepare_request;
  raw_response ← requests_call method (endpoint_no_query parsed_request)
                    (request_headers parsed_request)
                    (request_queries parsed_request)
                    (request_body parsed_request);
  _after_request_handling raw_response expected_response.

(** [async_post], [async_put], [async_patch] and [async_delete] likewise. *)
Definition async_with_body (method : HTTPMethod) (expected_response : PyClass)
  : PyM World Response :=
  parsed_request ← _validate_and_prepare_request;
  raw_response ← aiohttp_call_json method (endpoint_no_query parsed_request)
                    (request_headers parsed_request)
                    (request_queries parsed_request)
                    (request_body parsed_request);
  _after_request_handling raw_response expected_response.

Definition post := sync_with_body POST.
Definition async_post := async_with_body POST.
Definition put := sync_with_body PUT.
Definition async_put := async_with_body PUT.
Definition patch := sync_with_body PATCH.
Definition async_patch := async_with_body PATCH.
Definition delete := sync_with_body DELETE.
Definition async_delete := async_with_body DELETE.

(** [getattr(self, http_method_name)] resp. with the [async_] prefix. *)
Definition method_of (http_method : HTTPMethod) : PyClass → PyM World Response :=
  match http_method with
  | GET => get
  | POST => post
  | PUT => put
  | PATCH => patch
  | DELETE => delete
  end.

Definition async_method_of (http_method : HTTPMethod) : PyClass → PyM World Response :=
  match http_method with
  | GET => async_get
  | POST => async_post
  | PUT => async_put
  | PATCH => async_patch
  | DELETE => async_delete
  end.

Definition submit_request (expected_response_type : PyClass) : PyM World Response :=
  api_request ← read api_request;
  method_of (get_http_method api_request) expected_response_type.

Definition async_submit_request (expected_response_type : PyClass)
  : PyM World Response :=
  api_request ← read api_request;
  async_method_of (get_http_method api_request) expected_response_type.

End GenericHordeAPIClient.

(** ** class HordeRequestHandler *)
Module HordeRequestHandler.
Import Py Model Monad.

(** The three classes of [mappable_base_types].  They are declared in
    horde_sdk.generic_api.apimodels, which is not among the sources, so the
    handler takes them as given. *)
Class ApiModels : Type := {
  BaseRequestAuthenticated : PyClass;
  BaseRequestUserSpecific : PyClass;
  BaseRequestWorkerDriven : PyClass;
}.

(** The handler object.  [response] is declared on the class and assigned
    nowhere in this file. *)
Record handler : Type := {
  request : BaseRequest;
  response : option Response;
}.

(** The state the context-manager hooks run in: the object [self] and what
    has been printed. *)
Record Scope : Type := {
  this : handler;
  stdout : list string;
}.

Definition __init__ (request : BaseRequest) : handler :=
  {| request := request; response := None |}.

Definition __enter__ : PyM Scope BaseRequest :=
  self ← read this;
  mret (request self).

Definition print (line : string) : PyM Scope unit :=
  λ s, (Returned (), {| this := this s; stdout := stdout s ++ [line] |}).

(** An argument of [__exit__] as the f-string renders it. *)
Definition rendered (o : option string) : string := default "None" o.

(** The inner loop: [for key in base_type.model_fields:
    request_params[key] = getattr(self.request, key)]. *)
Fixpoint copy_fields (request : BaseRequest) (keys : list string)
    (request_params : gmap string pyval) : outcome (gmap string pyval) :=
  match keys with
  | [] => Returned request_params
  | key :: rest =>
      match getattr request key with
      | None =>
          Raised (AttributeError
            ("'" +:+ cls_name (request_class request)
                 +:+ "' object has no attribute '" +:+ key +:+ "'"))
      | Some v => copy_fields request rest (<[key := v]> request_params)
      end
  end.

(** The outer loop: [for base_type in mappable_base_types]. *)
Fixpoint map_base_types (request : BaseRequest) (recovery_request_type : PyClass)
    (mappable_base_types : list PyClass) (request_params : gmap string pyval)
  : outcome (gmap string pyval) :=
  match mappable_base_types with
  | [] => Returned request_params
  | base_type :: rest =>
      if issubclass recovery_request_type base_type then
        match copy_fields request (model_fields base_type) request_params with
        | Raised e => Raised e
        | Returned request_params' =>
            map_base_types request recovery_request_type rest request_params'
        end
      else map_base_types request recovery_request_type rest request_params
  end.

(** The value of the local [request_params] when the loops of [__exit__]
    are through (lines 564 to 583). *)
Definition recovery_request_params `{ApiModels} (request : BaseRequest)
  : outcome (gmap string pyval) :=
  let recovery_request_type := get_recovery_request_type request in
  let request_params : gmap string pyval := ∅ in
  let mappable_base_types :=
    [BaseRequestAuthenticated; BaseRequestUserSpecific; BaseRequestWorkerDriven] in
  map_base_types request recovery_request_type mappable_base_types request_params.

(** [__exit__] has no return statement: where it returns, it returns [None].
    The arguments are given by their renderings, [None] for [None]. *)
Definition __exit__ `{ApiModels} (exc_type exc_val exc_tb : option string)
  : PyM Scope pyval :=
  match exc_type with
  | None => mret PyNone
  | Some _ =>
      print ("Error: " +:+ rendered exc_val +:+ ", Type: " +:+ rendered exc_type
             +:+ ", Traceback: " +:+ rendered exc_tb);;
      self ← read this;
      if negb (is_recovery_enabled (request self)) then mret PyNone
      else
        request_params ← lift (recovery_request_params (request self));
        mret PyNone
  end.

End HordeRequestHandler.

(** ** Concrete clients, requests and replies used by the examples *)
Module Scenario.
Import Py Format Model Monad GenericHordeAPIClient.

Definition demo_client : client :=
  {| _header_data_keys := [("apikey", "apikey"); ("accept", "accept");
                           ("client_agent", "Client-Agent")];
     _path_data_keys := [("id", "id"); ("user_id", "user_id")];
     _query_data_keys := [("type", "type")] |}.

Definition status_response_class : PyClass :=
  {| cls_name := "ImageGenerateStatusResponse";
     cls_ancestors := ["ImageGenerateCheckResponse"; "BaseResponse"; "BaseModel"; "object"];
     model_fields := ["finished"; "processing"; "restarted"; "waiting"; "done";
                      "faulted"; "wait_time"; "queue_position"; "kudos";
                      "is_possible"; "generations"; "shared"] |}.

Definition is_int (j : json) : bool :=
  match j with JInt _ => true | _ => false end.

Definition is_bool (j : json) : bool :=
  match j with JBool _ => true | _ => false end.

Definition is_number (j : json) : bool :=
  match j with JInt _ | JFloat _ => true | _ => false end.

Definition is_str (j : json) : bool :=
  match j with JStr _ => true | _ => false end.

(** A required field: present, with a value of the declared kind. *)
Definition required (kind : json → bool) (k : string) (items : list (string * json))
  : bool :=
  match assoc k items with
  | Some v => kind v
  | None => false
  end.

(** A field with a default: absent, or of the declared kind. *)
Definition defaulted (kind : json → bool) (k : string) (items : list (string * json))
  : bool :=
  match assoc k items with
  | Some v => kind v
  | None => true
  end.

(** [ImageGeneration] (_status.py, lines 13 to 34): eight required fields. *)
Definition is_image_generation (j : json) : bool :=
  match j with
  | JObj items =>
      required is_str "id" items && required is_str "worker_id" items
      && required is_str "worker_name" items && required is_str "model" items
      && required is_str "state" items && required is_str "img" items
      && required is_str "seed" items && required is_bool "censored" items
  | _ => false
  end.

Definition is_generations (j : json) : bool :=
  match j with
  | JArr items => forallb is_image_generation items
  | _ => false
  end.

Definition is_shared (j : json) : bool :=
  match j with JBool _ | JNull => true | _ => false end.

(** The required fields that [ImageGenerateStatusResponse] inherits from
    [ImageGenerateCheckResponse], a class declared outside the files at hand
    (generate/_check.py; the v2 API model RequestStatusCheck), with the kind
    of each.  Kinds are compared as JSON kinds; the coercions of the schema
    library (a digit string taken for an integer) are left out, and no
    example has such a value. *)
Definition inherited_required : list (string * (json → bool)) :=
  [("finished", is_int); ("processing", is_int); ("restarted", is_int);
   ("waiting", is_int); ("done", is_bool); ("faulted", is_bool);
   ("wait_time", is_int); ("queue_position", is_int); ("kudos", is_number);
   ("is_possible", is_bool)].

(** The diagnostic for the first inherited field that is missing or of
    another kind. *)
Fixpoint first_invalid (fields : list (string * (json → bool)))
    (items : list (string * json)) : option string :=
  match fields with
  | [] => None
  | (k, kind) :: rest =>
      match assoc k items with
      | None => Some (k +:+ ": Field required")
      | Some v =>
          if kind v then first_invalid rest items
          else Some (k +:+ ": Input should be a valid value of its type")
      end
  end.

(** The parser of [ImageGenerateStatusResponse] (_status.py, lines 37 to
    50): an object is accepted when it has the inherited required fields,
    and [generations] and [shared], which have defaults, are absent or of
    their kind.  Of the errors the schema library collects, the diagnostic
    names the first. *)
Definition status_response_type : ResponseType :=
  {| rt_class := status_response_class;
     from_dict_or_array := λ j,
       match j with
       | JObj items =>
           match first_invalid inherited_required items with
           | Some diagnostic => Raised (ValidationError diagnostic)
           | None =>
               if negb (defaulted is_generations "generations" items) then
                 Raised (ValidationError "generations: Input should be a valid list")
               else if negb (defaulted is_shared "shared" items) then
                 Raised (ValidationError "shared: Input should be a valid boolean")
               else Returned {| obj_class := status_response_class; obj_data := j |}
           end
       | _ => Raised (ValidationError "Input should be a valid dictionary")
       end |}.

(** A reply that the status schema accepts. *)
Definition status_body : json :=
  JObj [("finished", JInt 1); ("processing", JInt 0); ("restarted", JInt 0);
        ("waiting", JInt 0); ("done", JBool true); ("faulted", JBool false);
        ("wait_time", JInt 0); ("queue_position", JInt 0); ("kudos", JFloat "10.0");
        ("is_possible", JBool true); ("generations", JArr []); ("shared", JBool false)].

Definition delete_request_class : PyClass :=
  {| cls_name := "DeleteImageGenerateRequest";
     cls_ancestors := ["BaseAIHordeRequest"; "BaseRequestAuthenticated";
                       "BaseImageJobRequest"; "BaseRequest"; "BaseModel"; "object"];
     model_fields := ["apikey"; "id"] |}.

Definition status_request_class : PyClass :=
  {| cls_name := "ImageGenerateStatusRequest";
     cls_ancestors := ["BaseAIHordeRequest"; "BaseImageJobRequest"; "BaseRequest";
                       "BaseModel"; "object"];
     model_fields := ["id"] |}.

(** A status request to [/v2/generate/status/{id}] with the given fields. *)
Definition status_request (fields : list (string * pyval)) : BaseRequest :=
  {| request_class := status_request_class;
     __dict__ := fields;
     class_attributes := [];
     model_fields_set := list_to_set fields.*1;
     serialize_field := λ _ _ _ v, v;
     get_endpoint_url := "https://aihorde.net/api/v2/generate/status/{id}";
     get_header_fields := [];
     get_http_method := GET;
     get_success_response_type := status_response_type;
     is_recovery_enabled := true;
     get_recovery_request_type := delete_request_class |}.

(** A service that answers every call with the same status and body. *)
Definition world_of (r : BaseRequest) (status : Z) (body : json) : World :=
  {| self := demo_client; api_request := r;
     server := λ _, (status, body); http_log := [] |}.

Definition generate_request_class : PyClass :=
  {| cls_name := "ImageGenerateAsyncRequest";
     cls_ancestors := ["BaseAIHordeRequest"; "BaseRequestAuthenticated";
                       "BaseRequest"; "BaseModel"; "object"];
     model_fields := ["apikey"; "prompt"; "models"] |}.

(** A generation request, a POST to [/v2/generate/async]. *)
Definition generate_request (fields : list (string * pyval)) : BaseRequest :=
  {| request_class := generate_request_class;
     __dict__ := fields;
     class_attributes := [];
     model_fields_set := list_to_set fields.*1;
     serialize_field := λ _ _ _ v, v;
     get_endpoint_url := "https://aihorde.net/api/v2/generate/async";
     get_header_fields := [];
     get_http_method := POST;
     get_success_response_type := status_response_type;
     is_recovery_enabled := true;
     get_recovery_request_type := delete_request_class |}.

(** The three mappable classes with one field each. *)
Definition demo_models : HordeRequestHandler.ApiModels :=
  {| HordeRequestHandler.BaseRequestAuthenticated :=
       {| cls_name := "BaseRequestAuthenticated";
          cls_ancestors := ["BaseModel"; "object"];
          model_fields := ["apikey"] |};
     HordeRequestHandler.BaseRequestUserSpecific :=
       {| cls_name := "BaseRequestUserSpecific";
          cls_ancestors := ["BaseRequestAuthenticated"; "BaseModel"; "object"];
          model_fields := ["user_id"] |};
     HordeRequestHandler.BaseRequestWorkerDriven :=
       {| cls_name := "BaseRequestWorkerDriven";
          cls_ancestors := ["BaseRequestAuthenticated"; "BaseModel"; "object"];
          model_fields := ["worker_id"] |} |}.

(** The worlds of the examples: the demo client, one request, and a service
    with a fixed reply. *)
Definition found : World :=
  world_of (status_request [("id", PyStr "abc")]) 200 (JObj [("generations", JArr [])]).
(** A status request of a subclass that declares the extra header field
    [from_], named so because [from] is a Python keyword.  It carries the
    fields [accept] and [client_agent] of every request, left at their
    defaults. *)
Definition with_extra_header : World :=
  world_of
    {| request_class :=
         {| cls_name := "ContactStatusRequest";
            cls_ancestors := cls_name status_request_class
                             :: cls_ancestors status_request_class;
            model_fields := ["accept"; "client_agent"; "id"; "from_"] |};
       __dict__ := [("accept", PyStr "application/json");
                    ("client_agent", PyStr "horde_sdk:0.2.0");
                    ("id", PyStr "abc");
                    ("from_", PyStr "ops@example.org")];
       class_attributes := [];
       model_fields_set := list_to_set ["id"; "from_"];
       serialize_field := λ _ _ _ v, v;
       get_endpoint_url := "https://aihorde.net/api/v2/generate/status/{id}";
       get_header_fields := ["from_"];
       get_http_method := GET;
       get_success_response_type := status_response_type;
       is_recovery_enabled := false;
       get_recovery_request_type := delete_request_class |}
    200 status_body.
Definition with_stray_field : World :=
  world_of (status_request [("id", PyStr "abc"); ("prompt", PyStr "a cat in a hat")])
           200 (JObj [("generations", JArr [])]).
Definition without_id : World :=
  world_of (status_request [("id", PyNone)]) 200 (JObj [("generations", JArr [])]).
Definition with_other_path : World :=
  world_of (status_request [("id", PyNone); ("user_id", PyStr "7")])
           200 (JObj [("generations", JArr [])]).
Definition generate : World :=
  world_of (generate_request [("apikey", PyStr "0000000000");
                              ("prompt", PyStr "a cat in a hat");
                              ("models", PyOther "['Deliberate']")])
           200 (JObj []).



(** An object of a class outside the request hierarchy. *)
Definition foreign : World :=
  world_of
    {| request_class := {| cls_name := "dict"; cls_ancestors := ["object"];
                           model_fields := [] |};
       __dict__ := [];
       class_attributes := [];
       model_fields_set := ∅;
       serialize_field := λ _ _ _ v, v;
       get_endpoint_url := "";
       get_header_fields := [];
       get_http_method := GET;
       get_success_response_type := status_response_type;
       is_recovery_enabled := false;
       get_recovery_request_type := delete_request_class |}
    200 JNull.

(** A generation request whose [apikey] is [None]. *)
Definition without_key : World :=
  world_of (generate_request [("apikey", PyNone);
                              ("prompt", PyStr "a cat in a hat")])
           200 (JObj []).

(** A success type whose parser fails with a TypeError on anything but an
    object. *)
Definition strict_response_type : ResponseType :=
  {| rt_class := status_response_class;
     from_dict_or_array := λ j,
       match j with
       | JObj _ => Returned {| obj_class := status_response_class; obj_data := j |}
       | _ => Raised (TypeError "argument after ** must be a mapping")
       end |}.

Definition strict : World :=
  world_of
    {| request_class := status_request_class;
       __dict__ := [("id", PyStr "abc")];
       class_attributes := [];
       model_fields_set := list_to_set ["id"];
       serialize_field := λ _ _ _ v, v;
       get_endpoint_url := "https://aihorde.net/api/v2/generate/status/{id}";
       get_header_fields := [];
       get_http_method := GET;
       get_success_response_type := strict_response_type;
       is_recovery_enabled := false;
       get_recovery_request_type := delete_request_class |}
    200 (JInt 3).

(** The status request of [found], answered with a complete status. *)
Definition finished : World :=
  world_of (status_request [("id", PyStr "abc")]) 200 status_body.

(** The generation request of [generate], refused by the service. *)
Definition refused : World :=
  world_of (generate_request [("apikey", PyStr "0000000000");
                              ("prompt", PyStr "a cat in a hat");
                              ("models", PyOther "['Deliberate']")])
           400 (JObj [("message", JStr "invalid apikey")]).

(** A generation request with a nested model: [params] has the fields
    [n = 2] and [steps = None], and is dumped without the latter. *)
Definition nested : World :=
  world_of
    {| request_class := generate_request_class;
       __dict__ := [("apikey", PyStr "0000000000");
                    ("prompt", PyStr "a cat in a hat");
                    ("params", PyOther "n=2 steps=None")];
       class_attributes := [];
       model_fields_set := list_to_set ["apikey"; "prompt"; "params"];
       serialize_field := λ _ _ name v,
         if String.eqb name "params" then PyOther "{'n': 2}" else v;
       get_endpoint_url := "https://aihorde.net/api/v2/generate/async";
       get_header_fields := [];
       get_http_method := POST;
       get_success_response_type := status_response_type;
       is_recovery_enabled := true;
       get_recovery_request_type := delete_request_class |}
    200 (JObj []).

(** What marshalling the request of a state returns; the empty Parsed
    Request stands in where it raises. *)
Definition parsed (w : World) : _ParsedRequest :=
  match (_validate_and_prepare_request w).1 with
  | Returned p => p
  | Raised _ =>
      {| endpoint_no_query := ""; request_headers := ∅; request_queries := ∅;
         request_params := ∅; request_body := None |}
  end.

Definition scope_of (r : BaseRequest) : HordeRequestHandler.Scope :=
  {| HordeRequestHandler.this := HordeRequestHandler.__init__ r;
     HordeRequestHandler.stdout := [] |}.

End Scenario.

(** ** The marshaller's body as the specification words it *)
Module Spec.
Import Py Model GenericHordeAPIClient.

(** A registry claims a field of the request when the field's internal name
    is present in the registry and its value is not null. *)
Definition claimed (registry : list (string * string)) (r : BaseRequest)
    (name : string) : bool :=
  bool_decide (name ∈ registry.*1)
  && match getattr r name with
     | Some v => negb (is_None v)
     | None => false
     end.

(** The non-null, explicitly-set fields of the request minus every field
    claimed by headers, paths, queries or the extra header fields. *)
Definition remainder (c : client) (r : BaseRequest) : list (string * pyval) :=
  List.filter
    (λ item : string * pyval,
       negb (is_None item.2)
       && bool_decide (item.1 ∈ model_fields_set r)
       && negb (claimed (_header_data_keys c) r item.1
                || claimed (_path_data_keys c) r item.1
                || claimed (_query_data_keys c) r item.1
                || bool_decide (item.1 ∈ get_header_fields r)))
    (__dict__ r).

(** The fields of the remainder as they are sent: each under its name,
    with its value dumped by the request's serialiser. *)
Definition dumped (r : BaseRequest) (fields : list (string * pyval))
  : list (string * pyval) :=
  map (λ item : string * pyval, (item.1, serialize_field r true true item.1 item.2))
      fields.

(** An empty remainder is an absent body. *)
Definition body (c : client) (r : BaseRequest) : option (list (string * pyval)) :=
  match remainder c r with
  | [] => None
  | _ :: _ => Some (dumped r (remainder c r))
  end.

(** The shapes of a body that matter on a status of 400 or more. *)
Inductive error_shape : Type :=
| MessageObject (v : json)
| NoLength
| MessageArray
| OtherShape.

Definition shape_of (body : json) : error_shape :=
  match body with
  | JObj [(k, v)] => if String.eqb k "message" then MessageObject v else OtherShape
  | JArr [JStr s] => if String.eqb s "message" then MessageArray else OtherShape
  | JNull | JBool _ | JInt _ | JFloat _ => NoLength
  | _ => OtherShape
  end.

(** What a reply with a status of 400 or more resolves to, shape by shape. *)
Definition error_reply (body : json) : outcome Response :=
  match shape_of body with
  | MessageObject (JStr s) =>
      Returned (Error {| message := s; object_data := None |})
  | MessageObject _ =>
      Raised (ValidationError "message: Input should be a valid string")
  | NoLength =>
      Raised (TypeError ("object of type '" +:+ type_name body +:+ "' has no len()"))
  | MessageArray => Raised (TypeError "argument after ** must be a mapping")
  | OtherShape => Raised (RuntimeError no_message_key)
  end.

(** Between two states at most one call was issued, a GET without a body. *)
Definition at_most_a_bodiless_get (before after : World) : Prop :=
  http_log after = http_log before
  ∨ ∃ c, http_log after = (http_log before ++ [c])%list
         ∧ call_method c = GET ∧ call_json c = None.

(** The fields of the mappable field-group schemas that the recovery
    request type of the request satisfies. *)
Definition mapped_keys `{HordeRequestHandler.ApiModels} (r : BaseRequest)
  : list string :=
  concat (map model_fields
            (List.filter (issubclass (get_recovery_request_type r))
               [HordeRequestHandler.BaseRequestAuthenticated;
                HordeRequestHandler.BaseRequestUserSpecific;
                HordeRequestHandler.BaseRequestWorkerDriven])).

End Spec.

(** ** Vocabulary for the properties of the dispatch and of the buckets *)
Module Behaviour.
Import Py Format Model Monad GenericHordeAPIClient.

(** Where the second loop of the marshaller puts a field, by the order of
    its tests: a path-claimed field is skipped, a header-claimed or extra
    header field goes to the headers, a query-claimed field to the queries,
    and any other field to [request_params_dict]. *)
Inductive placement : Type := Consumed | InHeaders | InQueries | InRemainder.

Definition placement_of (c : client) (r : BaseRequest) (name : string) : placement :=
  if Spec.claimed (_path_data_keys c) r name then Consumed
  else if Spec.claimed (_header_data_keys c) r name
          || bool_decide (name ∈ get_header_fields r) then InHeaders
  else if Spec.claimed (_query_data_keys c) r name then InQueries
  else InRemainder.

(** The dictionary of a Parsed Request that belongs to a placement. *)
Definition bucket (p : _ParsedRequest) (where_ : placement) : gmap string pyval :=
  match where_ with
  | Consumed => ∅
  | InHeaders => request_headers p
  | InQueries => request_queries p
  | InRemainder => request_params p
  end.

(** A dictionary filled, in order, with the items whose key is selected. *)
Definition collect (selected : string → bool) (items : list (string * pyval))
    (init : gmap string pyval) : gmap string pyval :=
  foldl (λ m item, if selected item.1 then <[item.1 := item.2]> m else m) init items.

(** The selections of the three dictionaries, over the dictionaries of
    specified keys the loop starts from. *)
Definition to_headers (sh sp : list (string * string)) (extra : list string)
    (k : string) : bool :=
  negb (has_key k sp) && (has_key k sh || bool_decide (k ∈ extra)).

Definition to_queries (sh sp sq : list (string * string)) (extra : list string)
    (k : string) : bool :=
  negb (has_key k sp) && negb (has_key k sh || bool_decide (k ∈ extra))
  && has_key k sq.

Definition to_remainder (sh sp sq : list (string * string)) (extra : list string)
    (k : string) : bool :=
  negb (has_key k sp) && negb (has_key k sh || bool_decide (k ∈ extra))
  && negb (has_key k sq).




(** The call a verb method hands to the transport for a Parsed Request:
    [get] and [async_get] pass no [json] argument. *)
Definition call_of (via : library) (method : HTTPMethod) (p : _ParsedRequest)
  : HttpCall :=
  {| call_via := via; call_method := method;
     call_url := endpoint_no_query p;
     call_headers := request_headers p;
     call_params := request_queries p;
     call_json := match method with GET => None | _ => request_body p end;
     call_allow_redirects := true |}.

(** The state after one more call. *)
Definition logged (w : World) (c : HttpCall) : World :=
  {| self := self w; api_request := api_request w; server := server w;
     http_log := http_log w ++ [c] |}.

(** From one state to the next: the client, the request and the service
    are the same, and the log is the same or longer by one call, made with
    the given library and method and following redirects. *)
Definition at_most_one_call (via : library) (method : HTTPMethod)
    (before after : World) : Prop :=
  self after = self before
  ∧ api_request after = api_request before
  ∧ server after = server before
  ∧ (http_log after = http_log before
     ∨ ∃ c, http_log after = (http_log before ++ [c])%list
            ∧ call_via c = via ∧ call_method c = method
            ∧ call_allow_redirects c = true).

(** The two shapes of [object_data] the resolver builds for a reply that
    does not match the expected type. *)
Definition mismatch_payload (body : json) (object_data : option payload) : Prop :=
  object_data = Some (Dict [("raw_response", RawJson body)])
  ∨ ∃ d, object_data = Some (Dict [("exception", Caught (ValidationError d));
                                   ("raw_response", RawJson body)]).

End Behaviour.

(** * Properties *)

Import Py Format Model Monad.

Ltac raised := by (eexists; split; [|reflexivity]).
Ltac run := unfold mbind, pym_bind, mret, pym_ret, read, lift, raise; simpl.

#[local] Arguments GenericHordeAPIClient._validate_and_prepare_request : simpl never.
#[local] Arguments GenericHordeAPIClient._after_request_handling : simpl never.
#[local] Arguments Py.str_contains : simpl never.

(** ** Formatting *)
Section FormatFacts.

Lemma length_String (c : ascii) (s : string) :
  String.length (String c s) = S (String.length s).
Proof. reflexivity. Qed.

Ltac len_lia :=
  repeat match goal with
    | H : context [String.length (String _ _)] |- _ => rewrite length_String in H
    end;
  rewrite ?length_String; lia.

Lemma scan_missing_field (a v : string) (n : nat) :
  ∀ (s : string) (m : mode) (fs : list string),
    (String.length s ≤ n)%nat →
    fields_from m s = Some fs →
    (∃ f, f ∈ fs ∧ f ≠ a) →
    ∃ e, scan {[ a := v ]} m s = inl e ∧ is_format_error e = true.
Proof.
  induction n as [n IH] using lt_wf_ind.
  intros s m fs Hlen Hfs [f [Hin Hne]].
  destruct m as [|name]; destruct s as [|c rest]; simpl in *;
    try discriminate.
  - injection Hfs as <-. inversion Hin.
  - destruct (Ascii.eqb c "{").
    + destruct rest as [|c2 rest2]; [discriminate|].
      destruct (Ascii.eqb c2 "{").
      * destruct (IH (String.length rest2) ltac:(len_lia) rest2 InText fs
                    ltac:(len_lia) Hfs) as [e [He Hfe]]; [eauto|].
        exists e. rewrite He. auto.
      * apply (IH (String.length (String c2 rest2)) ltac:(len_lia)
                 (String c2 rest2) (InField EmptyString) fs ltac:(len_lia) Hfs).
        eauto.
    + destruct (Ascii.eqb c "}").
      * destruct rest as [|c2 rest2]; [discriminate|].
        destruct (Ascii.eqb c2 "}"); [|discriminate].
        destruct (IH (String.length rest2) ltac:(len_lia) rest2 InText fs
                    ltac:(len_lia) Hfs) as [e [He Hfe]]; [eauto|].
        exists e. rewrite He. auto.
      * destruct (IH (String.length rest) ltac:(len_lia) rest InText fs
                    ltac:(len_lia) Hfs) as [e [He Hfe]]; [eauto|].
        exists e. rewrite He. auto.
  - destruct (Ascii.eqb c "}").
    + destruct (fields_from InText rest) as [fs'|] eqn:Hrest; [|discriminate].
      simpl in Hfs. injection Hfs as <-.
      destruct (positional name); [eauto|].
      destruct (decide (name = a)) as [->|Hna].
      * rewrite lookup_singleton_eq.
        apply elem_of_cons in Hin as [->|Hin]; [congruence|].
        destruct (IH (String.length rest) ltac:(len_lia) rest InText fs'
                    ltac:(len_lia) Hrest) as [e [He Hfe]]; [eauto|].
        exists e. rewrite He. auto.
      * rewrite lookup_singleton_ne by congruence. eauto.
    + destruct (Ascii.eqb c "{"); [discriminate|].
      destruct (starts_suffix c); [discriminate|].
      apply (IH (String.length rest) ltac:(len_lia)
               rest (InField (name +:+ one c)) fs ltac:(len_lia) Hfs).
      eauto.
Qed.

(** A template with a field other than the one key of the mapping makes
    [format_map] raise. *)
Lemma format_map_missing_field (template a v : string) (fs : list string) (f : string) :
  template_fields template = Some fs → f ∈ fs → f ≠ a →
  ∃ e, format_map template {[ a := v ]} = inl e ∧ is_format_error e = true.
Proof.
  intros Hfs Hin Hne.
  apply (scan_missing_field a v (String.length template) template InText fs);
    [lia | exact Hfs | eauto].
Qed.

End FormatFacts.

(** ** Marshalling *)
Section Marshalling.
Import GenericHordeAPIClient.

(** A claimed member of a registry names an attribute with a value other
    than [None]. *)
Lemma specified_has_value (registry : list (string * string)) (r : BaseRequest)
    (py api : string) :
  In (py, api) (get_specified_data_keys registry r) →
  ∃ v, getattr r py = Some v ∧ is_None v = false.
Proof.
  unfold get_specified_data_keys. rewrite filter_In. simpl.
  intros [_ H]. destruct (getattr r py) as [v|]; [|rewrite andb_false_r in H; done].
  exists v. split; [done|]. apply andb_true_iff in H as [_ H].
  by apply negb_true_iff.
Qed.

Lemma specified_keys (registry : list (string * string)) (r : BaseRequest)
    (name : string) :
  name ∈ (get_specified_data_keys registry r).*1 ↔ Spec.claimed registry r name = true.
Proof.
  unfold Spec.claimed, get_specified_data_keys, hasattr.
  rewrite andb_true_iff, bool_decide_eq_true, !list_elem_of_fmap. split.
  - intros [[py api] [-> Hin]]. apply list_elem_of_In, filter_In in Hin as [Hin H].
    simpl in *. split.
    + exists (py, api). split; [done|]. by apply list_elem_of_In.
    + destruct (getattr r py); simpl in *; [done|discriminate].
  - intros [[[py api] [-> Hin]] H]. exists (py, api). split; [done|].
    apply list_elem_of_In, filter_In. split; [by apply list_elem_of_In|].
    simpl in *. destruct (getattr r py); simpl in *; [done|discriminate].
Qed.

(** What a run of the marshaller gives, case by case; the state is the one
    it started in. *)
Lemma marshal_run (w : World) :
  let c := self w in
  let r := api_request w in
  let sh := get_specified_data_keys (_header_data_keys c) r in
  let sp := get_specified_data_keys (_path_data_keys c) r in
  let sq := get_specified_data_keys (_query_data_keys c) r in
  let b := classify_all sh sp sq (get_header_fields r) (__dict__ r) in
  _validate_and_prepare_request w =
    (if negb (issubclass (request_class r) BaseRequest_class) then
       Raised (TypeError "`request` must be of type `BaseRequest` or a subclass of it!")
     else match substitute_paths r sp (get_endpoint_url r) with
          | Raised e => Raised e
          | Returned endpoint_url =>
              Returned {| endpoint_no_query := endpoint_url;
                          request_headers := request_headers_dict b;
                          request_queries := request_queries_dict b;
                          request_params := request_params_dict b;
                          request_body :=
                            body_data r (specified_headers b) sp sq (get_header_fields r) |}
          end,
     w).
Proof.
  unfold _validate_and_prepare_request. run.
  destruct (negb (issubclass (request_class (api_request w)) BaseRequest_class));
    [done|].
  by destruct (substitute_paths _ _ _).
Qed.

(** When the marshaller raises, every verb method raises the same
    exception and leaves the state as it was: no call has been issued. *)
Lemma marshal_raise_propagates (w : World) (e : PyExc) (expected : PyClass) :
  _validate_and_prepare_request w = (Raised e, w) →
  (∀ m, method_of m expected w = (Raised e, w))
  ∧ (∀ m, async_method_of m expected w = (Raised e, w)).
Proof.
  intros H. split; intros []; simpl;
    unfold get, async_get, post, put, patch, delete, async_post, async_put,
      async_patch, async_delete, sync_with_body, async_with_body;
    run; by rewrite H.
Qed.

Lemma dict_set_keys {V : Type} (k k' : string) (v : V) (d : list (string * V)) :
  k' ∈ (dict_set k v d).*1 ↔ k' = k ∨ k' ∈ d.*1.
Proof.
  induction d as [|[k0 v0] d IH]; simpl.
  - rewrite list_elem_of_singleton, elem_of_nil. tauto.
  - destruct (String.eqb_spec k k0) as [->|Hne]; simpl.
    + rewrite !elem_of_cons. tauto.
    + rewrite !elem_of_cons, IH. tauto.
Qed.

(** The loop adds to [specified_headers] nothing but extra header keys. *)
Lemma classify_all_specified_headers (sh sp sq : list (string * string))
    (extra : list string) (items : list (string * pyval)) (k : string) :
  k ∈ (specified_headers (classify_all sh sp sq extra items)).*1 ∨ k ∈ extra
  ↔ k ∈ sh.*1 ∨ k ∈ extra.
Proof.
  unfold classify_all.
  generalize (∅ : gmap string pyval) at 1 as ps.
  generalize (∅ : gmap string pyval) at 1 as hs.
  generalize (∅ : gmap string pyval) as qs.
  revert sh. induction items as [|[key value] items IH]; intros sh qs hs ps; [done|].
  simpl. unfold classify at 2. simpl.
  destruct (has_key key sp); [apply IH|].
  destruct (has_key key sh); [apply IH|].
  case_bool_decide as Hextra.
  - rewrite IH, dict_set_keys. split; [|tauto].
    intros [[->|?]|?]; tauto.
  - destruct (has_key key sq); apply IH.
Qed.

(** The body the marshaller builds is the remainder of the specification. *)
Lemma body_data_spec (c : client) (r : BaseRequest) :
  let sh := get_specified_data_keys (_header_data_keys c) r in
  let sp := get_specified_data_keys (_path_data_keys c) r in
  let sq := get_specified_data_keys (_query_data_keys c) r in
  let b := classify_all sh sp sq (get_header_fields r) (__dict__ r) in
  body_data r (specified_headers b) sp sq (get_header_fields r) = Spec.body c r.
Proof.
  intros sh sp sq b. unfold body_data, Spec.body.
  assert (model_dump r true true
            (list_to_set ((specified_headers b).*1 ++ sp.*1 ++ sq.*1
                          ++ get_header_fields r))
          = Spec.dumped r (Spec.remainder c r)) as ->;
    [|unfold Spec.dumped; by destruct (Spec.remainder c r)].
  unfold model_dump, Spec.dumped, Spec.remainder. f_equal.
  apply filter_ext. intros [k v]. simpl.
  do 2 f_equal. apply eq_true_iff_eq.
  rewrite bool_decide_eq_true, elem_of_list_to_set, !orb_true_iff,
    bool_decide_eq_true, <- !specified_keys, !elem_of_app.
  fold sh sp sq.
  pose proof (classify_all_specified_headers sh sp sq (get_header_fields r)
                (__dict__ r) k) as H. fold b in H.
  tauto.
Qed.

(** Every key of the headers dictionary is the request's own field name,
    with the value of that field. *)
Lemma headers_keep_field_names (sh sp sq : list (string * string))
    (extra : list string) (items : list (string * pyval)) (k : string) (v : pyval) :
  request_headers_dict (classify_all sh sp sq extra items) !! k = Some v →
  (k, v) ∈ items.
Proof.
  unfold classify_all.
  assert (∀ b, request_headers_dict (foldl (classify sp sq extra) b items) !! k = Some v →
               request_headers_dict b !! k = Some v ∨ (k, v) ∈ items) as H.
  { induction items as [|[key value] items IH]; intros b Hb; simpl in *; [by left|].
    apply IH in Hb as [Hb|Hb]; [|right; by apply elem_of_cons; right].
    unfold classify in Hb. simpl in Hb.
    repeat match type of Hb with
           | context [if ?t then _ else _] => destruct t; simpl in Hb
           end; try (by left);
      (destruct (decide (key = k)) as [->|Hne];
       [rewrite lookup_insert_eq in Hb; simplify_eq; right; apply elem_of_cons; by left
       |rewrite lookup_insert_ne in Hb by done; by left]). }
  intros Hk. apply H in Hk as [Hk|Hk]; [|done]. simpl in Hk.
  by rewrite lookup_empty in Hk.
Qed.

(** The resolver leaves the state as it finds it. *)
Lemma resolver_frame (expected : PyClass) (raw : RawResponse) (w : World) :
  (_after_request_handling raw expected w).2 = w.
Proof.
  unfold _after_request_handling. run.
  repeat match goal with
         | |- context [match ?t with _ => _ end] => destruct t; simpl; try done
         end.
Qed.

(** C2, as amended.  For a request, an instance of BaseRequest: when at
    least one of its path-registry fields has a non-null value and the
    endpoint template is a plain format string holding a placeholder that
    matches the wire name of no path-claimed field, marshalling raises the
    KeyError or ValueError of the formatting step, the state is untouched,
    and both dispatch entry points raise it too without a call to the
    network; when none of its path-registry fields has a non-null value,
    the template is not formatted: marshalling returns, and the endpoint is
    the template as it stands. *)
Theorem C2_unmatched_placeholder_fails (w : World) :
  issubclass (request_class (api_request w)) BaseRequest_class = true →
  let specified_paths :=
    get_specified_data_keys (_path_data_keys (self w)) (api_request w) in
  (specified_paths ≠ [] →
   ∀ fs f,
     template_fields (get_endpoint_url (api_request w)) = Some fs →
     f ∈ fs →
     f ∉ specified_paths.*2 →
     ∃ e, is_format_error e = true
          ∧ _validate_and_prepare_request w = (Raised e, w)
          ∧ ∀ expected, submit_request expected w = (Raised e, w)
                        ∧ async_submit_request expected w = (Raised e, w))
  ∧ (specified_paths = [] →
     ∃ p, _validate_and_prepare_request w = (Returned p, w)
          ∧ endpoint_no_query p = get_endpoint_url (api_request w)).
Proof.
  intros Hcls specified_paths. subst specified_paths. split.
  - intros Hsp fs f Hfs Hin Hnot.
    assert (∃ e, is_format_error e = true
                 ∧ _validate_and_prepare_request w = (Raised e, w)) as [e [Hfe He]].
    { rewrite marshal_run, Hcls. simpl.
      destruct (get_specified_data_keys _ _) as [|[py api] rest] eqn:Hkeys; [done|].
      destruct (specified_has_value (_path_data_keys (self w)) (api_request w) py api)
        as [v [Hv _]]; [rewrite Hkeys; by left|].
      simpl. rewrite Hv.
      destruct (format_map_missing_field (get_endpoint_url (api_request w)) api
                  (py_str v) fs f Hfs Hin) as [e [He Hfe]].
      { intros ->. apply Hnot. simpl. apply elem_of_cons. by left. }
      exists e. by rewrite He. }
    exists e. split; [done|]. split; [done|]. intros expected.
    destruct (marshal_raise_propagates w e expected He) as [Hs Ha].
    unfold submit_request, async_submit_request. run. by rewrite Hs, Ha.
  - intros Hsp. rewrite marshal_run, Hcls, Hsp. cbn [negb substitute_paths].
    eexists. split; reflexivity.
Qed.

(** C3.  When marshalling a request gives a Parsed Request with a body,
    [get] and [async_get] raise a RuntimeError and the state, the log of
    issued calls included, is the one before; and whatever the request, a
    call that [get] or [async_get] does issue carries no body. *)
Theorem C3_get_with_body_is_fatal (w : World) (expected : PyClass) :
  (∀ p, _validate_and_prepare_request w = (Returned p, w) →
        request_body p ≠ None →
        (∃ msg, get expected w = (Raised (RuntimeError msg), w))
        ∧ (∃ msg, async_get expected w = (Raised (RuntimeError msg), w))
        ∧ (get_http_method (api_request w) = GET →
           (∃ msg, submit_request expected w = (Raised (RuntimeError msg), w))
           ∧ ∃ msg, async_submit_request expected w = (Raised (RuntimeError msg), w)))
  ∧ Spec.at_most_a_bodiless_get w (get expected w).2
  ∧ Spec.at_most_a_bodiless_get w (async_get expected w).2.
Proof.
  split.
  - intros p Hp Hbody.
    assert ((∃ msg, get expected w = (Raised (RuntimeError msg), w))
            ∧ (∃ msg, async_get expected w = (Raised (RuntimeError msg), w)))
      as [Hget Hasync].
    { unfold get, async_get. run. rewrite Hp.
      destruct (request_body p); [eauto|done]. }
    split; [done|]. split; [done|]. intros Hverb.
    unfold submit_request, async_submit_request. run. by rewrite Hverb.
  - pose proof (resolver_frame expected) as Hframe.
    pose proof (marshal_run w) as Hrun. simpl in Hrun.
    unfold Spec.at_most_a_bodiless_get.
    split; unfold get, async_get; run; rewrite Hrun; simpl;
      (destruct (negb _); simpl; [by left|]);
      (destruct (substitute_paths _ _ _); simpl; [|by left]);
      (destruct (body_data _ _ _ _ _); simpl; [by left|]);
      right; eexists; (split; [rewrite ?Hframe; simpl; reflexivity|done]).
Qed.

Lemma dumped_keys (r : BaseRequest) (fields : list (string * pyval)) :
  (Spec.dumped r fields).*1 = fields.*1.
Proof.
  unfold Spec.dumped. induction fields as [|item fields IH]; [done|].
  cbn [map fmap list_fmap fst]. f_equal. exact IH.
Qed.


(** C8.  A run of the marshaller leaves the state (the client, the request
    and the log of calls) as it found it, a second run gives the same
    outcome, Parsed Request or exception, and the outcome depends on the
    client and the request alone. *)
Theorem C8_marshalling_pure_idempotent (w : World) :
  (_validate_and_prepare_request w).2 = w
  ∧ _validate_and_prepare_request (_validate_and_prepare_request w).2
    = _validate_and_prepare_request w
  ∧ ∀ w', self w' = self w → api_request w' = api_request w →
          (_validate_and_prepare_request w').1 = (_validate_and_prepare_request w).1.
Proof.
  assert ((_validate_and_prepare_request w).2 = w) as Hframe
    by (by rewrite marshal_run).
  split; [done|]. split; [by rewrite Hframe|].
  intros w' Hc Hr. rewrite !marshal_run. simpl. by rewrite Hc, Hr.
Qed.

End Marshalling.

(** ** Response resolution *)
Section Resolution.
Import GenericHordeAPIClient.

(** A one-item dictionary that has the key [message] is keyed by it. *)
Lemma single_message_key (k : string) (v : json) :
  has_key "message" [(k, v)] = true ↔ k = "message".
Proof.
  unfold has_key. rewrite bool_decide_eq_true. simpl.
  rewrite list_elem_of_singleton. split; congruence.
Qed.

(** No string of length one contains the word. *)
Lemma no_message_in_one_char (c : ascii) :
  str_contains "message" (String c EmptyString) = false.
Proof. by destruct c as [[] [] [] [] [] [] [] []]. Qed.

(** C4, as amended.  On a status code of 400 or more the outcome of the
    resolver is the one the shape of the body fixes: the Error Response
    built from the body for an object whose only key is [message] and whose
    value is a string; the schema's validation error for such an object
    with another value; TypeError for a body without length and for the
    one-element array that holds the word; RuntimeError for every other
    body.  So it returns exactly for the first shape, and the state is
    untouched in every case. *)
Theorem C4_error_reply_resolution (w : World) (expected : PyClass)
    (status : Z) (body : json) :
  400 ≤ status →
  _after_request_handling (RequestsResponse status body) expected w
  = (Spec.error_reply body, w)
  ∧ (∀ s, body = JObj [("message", JStr s)] →
          _after_request_handling (RequestsResponse status body) expected w
          = (Returned (Error {| message := s; object_data := None |}), w))
  ∧ ((∀ s, body ≠ JObj [("message", JStr s)]) →
     ∃ e, is_python_exception e = true
          ∧ _after_request_handling (RequestsResponse status body) expected w
            = (Raised e, w)).
Proof.
  intros Hstatus. apply Z.leb_le in Hstatus.
  assert (_after_request_handling (RequestsResponse status body) expected w
          = (Spec.error_reply body, w)) as Heq.
  { unfold _after_request_handling, Spec.error_reply, Spec.shape_of. run.
    rewrite Hstatus.
    destruct body as [ | | | | s | items | items]; simpl; try done.
    - destruct s as [|c [|c' s]]; simpl; try done.
      rewrite (no_message_in_one_char c). reflexivity.
    - destruct items as [|j [|j' items]]; simpl; try done.
      + rewrite orb_false_r. unfold is_message.
        destruct j as [ | | | | s | | ]; simpl; try done.
        by destruct (String.eqb s "message").
      + by destruct j.
    - destruct items as [|[k v] [|kv items]]; simpl; try done.
      destruct (has_key "message" [(k, v)]) eqn:Hk; simpl.
      + apply single_message_key in Hk as ->. cbn.
        unfold RequestErrorResponse_kwargs. cbn.
        by destruct v.
      + assert (String.eqb k "message" = false) as ->; [|done].
        apply not_true_iff_false. intros Hname.
        apply String.eqb_eq in Hname as ->.
        by rewrite (proj2 (single_message_key "message" v) eq_refl) in Hk. }
  split; [done|]. rewrite Heq. split.
  - by intros s ->.
  - intros Hshape. unfold Spec.error_reply, Spec.shape_of.
    destruct body as [ | | | | s | items | items]; try raised.
    + destruct items as [|[ | | | | s | | ] [|j' items]]; try raised.
      destruct (String.eqb s "message"); raised.
    + destruct items as [|[k v] [|kv items]]; try raised.
      destruct (String.eqb_spec k "message") as [->|_]; [|raised].
      destruct v as [ | | | | s | | ]; try raised. by destruct (Hshape s).
Qed.

(** C5.  On a status code below 400, a body that the expected schema's
    parser rejects with a validation error, or that parses to an object
    which is no instance of the expected class, is answered with an Error
    Response that carries the fixed message and the raw body, and in the
    first case the validation error; the resolver returns, it does not
    raise. *)
Theorem C5_mismatch_is_an_error_response (w : World) (expected : PyClass)
    (status : Z) (body : json) :
  status < 400 →
  (∀ d, from_dict_or_array (get_success_response_type (api_request w)) body
        = Raised (ValidationError d) →
        _after_request_handling (RequestsResponse status body) expected w
        = (Returned (Error
             {| message := mismatch_message;
                object_data :=
                  Some (Dict [("exception", Caught (ValidationError d));
                              ("raw_response", RawJson body)]) |}), w))
  ∧ (∀ o, from_dict_or_array (get_success_response_type (api_request w)) body
          = Returned o →
          isinstance o expected = false →
          _after_request_handling (RequestsResponse status body) expected w
          = (Returned (Error
               {| message := mismatch_message;
                  object_data := Some (Dict [("raw_response", RawJson body)]) |}), w)).
Proof.
  intros Hstatus. apply Z.leb_gt in Hstatus.
  unfold _after_request_handling. run. rewrite Hstatus.
  split; [intros d -> | intros o -> Hinst]; simpl; [done|]. by rewrite Hinst.
Qed.

(** Whatever the verb, the request and the reply, a non-blocking method
    does not return a response: marshalling raises, or [async_get] refuses
    the body, or the resolver is handed the decoded body, which has no
    method [json]. *)
Lemma async_never_returns (m : HTTPMethod) (expected : PyClass) (w : World) :
  ∃ e w', async_method_of m expected w = (Raised e, w').
Proof.
  pose proof (marshal_run w) as Hrun. simpl in Hrun.
  destruct m; simpl;
    unfold async_get, async_post, async_put, async_patch, async_delete,
      async_with_body, _after_request_handling;
    run; rewrite Hrun;
    (destruct (negb _); simpl; [eauto|]);
    (destruct (substitute_paths _ _ _); simpl; [|eauto]);
    try (destruct (body_data _ _ _ _ _); simpl); eauto.
Qed.

End Resolution.

(** ** The recovery handler *)
Section Recovery.
Import HordeRequestHandler.
Context `{ApiModels}.

Lemma copy_fields_present (r : BaseRequest) (keys : list string) :
  ∀ acc : gmap string pyval,
    (∀ key, key ∈ keys → hasattr r key = true) →
    ∃ params, copy_fields r keys acc = Returned params
              ∧ ∀ key, params !! key
                       = if bool_decide (key ∈ keys) then getattr r key else acc !! key.
Proof.
  induction keys as [|k keys IH]; intros acc Hall; cbn [copy_fields].
  - exists acc. split; [done|]. intros key.
    case_bool_decide as Hx; [by apply elem_of_nil in Hx | done].
  - pose proof (Hall k ltac:(by left)) as Hk. unfold hasattr in Hk.
    destruct (getattr r k) as [v|] eqn:Hv; [|done].
    destruct (IH (<[k := v]> acc)) as [params [Hp Hlook]].
    { intros key Hkey. apply Hall. by right. }
    exists params. split; [done|]. intros key. rewrite Hlook.
    destruct (decide (key = k)) as [->|Hne].
    + rewrite lookup_insert_eq, Hv.
      rewrite (bool_decide_eq_true_2 (k ∈ k :: keys)) by (by left).
      by case_bool_decide.
    + rewrite lookup_insert_ne by done.
      repeat case_bool_decide; try done; exfalso;
        repeat match goal with
               | Hx : _ ∈ _ :: _ |- _ => apply elem_of_cons in Hx
               | Hx : ¬ (_ ∈ _ :: _) |- _ => rewrite elem_of_cons in Hx
               end; tauto.
Qed.

Lemma copy_fields_absent (r : BaseRequest) (keys : list string) :
  ∀ acc : gmap string pyval,
    (∃ key, key ∈ keys ∧ hasattr r key = false) →
    ∃ msg, copy_fields r keys acc = Raised (AttributeError msg).
Proof.
  induction keys as [|k keys IH]; intros acc [key [Hin Hkey]]; simpl.
  - by apply elem_of_nil in Hin.
  - unfold hasattr in *. destruct (getattr r k) as [v|] eqn:Hv; [|eauto].
    apply IH. exists key. split; [|done].
    apply elem_of_cons in Hin as [->|Hin]; [|done]. by rewrite Hv in Hkey.
Qed.

Lemma map_base_types_present (r : BaseRequest) (recovery : PyClass)
    (bases : list PyClass) :
  ∀ acc : gmap string pyval,
    let keys := concat (map model_fields (List.filter (issubclass recovery) bases)) in
    (∀ key, key ∈ keys → hasattr r key = true) →
    ∃ params, map_base_types r recovery bases acc = Returned params
              ∧ ∀ key, params !! key
                       = if bool_decide (key ∈ keys) then getattr r key else acc !! key.
Proof.
  induction bases as [|base bases IH]; intros acc keys Hall; subst keys;
    cbn [map_base_types List.filter map concat] in *.
  - exists acc. split; [done|]. intros key.
    case_bool_decide as Hx; [by apply elem_of_nil in Hx | done].
  - destruct (issubclass recovery base); cbn [map concat] in *; [|by apply IH].
    destruct (copy_fields_present r (model_fields base) acc) as [p1 [Hp1 Hl1]].
    { intros key Hkey. apply Hall, elem_of_app. by left. }
    rewrite Hp1.
    destruct (IH p1) as [p2 [Hp2 Hl2]].
    { intros key Hkey. apply Hall, elem_of_app. by right. }
    exists p2. split; [done|]. intros key. rewrite Hl2, Hl1.
    clear Hall IH. repeat case_bool_decide; try done;
      rewrite ?elem_of_app in *; tauto.
Qed.

Lemma copy_fields_raises (r : BaseRequest) (keys : list string)
    (acc : gmap string pyval) (e : PyExc) :
  copy_fields r keys acc = Raised e → ∃ msg, e = AttributeError msg.
Proof.
  revert acc. induction keys as [|k keys IH]; intros acc Hr; simpl in Hr; [done|].
  destruct (getattr r k); [by eapply IH|]. injection Hr as <-. eauto.
Qed.

Lemma map_base_types_absent (r : BaseRequest) (recovery : PyClass)
    (bases : list PyClass) :
  ∀ acc : gmap string pyval,
    let keys := concat (map model_fields (List.filter (issubclass recovery) bases)) in
    (∃ key, key ∈ keys ∧ hasattr r key = false) →
    ∃ msg, map_base_types r recovery bases acc = Raised (AttributeError msg).
Proof.
  induction bases as [|base bases IH]; intros acc keys [key [Hin Hkey]];
    subst keys; cbn [map_base_types List.filter map concat] in *.
  - by apply elem_of_nil in Hin.
  - destruct (issubclass recovery base); cbn [map concat] in *; [|apply IH; eauto].
    apply elem_of_app in Hin as [Hin|Hin].
    + destruct (copy_fields_absent r (model_fields base) acc) as [msg ->]; eauto.
    + destruct (copy_fields r (model_fields base) acc) as [p|e] eqn:Hc.
      * apply IH. eauto.
      * apply copy_fields_raises in Hc as [msg ->]. eauto.
Qed.

(** The loops raise nothing but AttributeError. *)
Lemma map_base_types_raises (r : BaseRequest) (recovery : PyClass)
    (bases : list PyClass) (acc : gmap string pyval) (e : PyExc) :
  map_base_types r recovery bases acc = Raised e → ∃ msg, e = AttributeError msg.
Proof.
  revert acc. induction bases as [|base bases IH]; intros acc Hr; simpl in Hr; [done|].
  destruct (issubclass recovery base); [|by eapply IH].
  destruct (copy_fields r (model_fields base) acc) eqn:Hc; [by eapply IH|].
  injection Hr as <-. by eapply copy_fields_raises.
Qed.

(** C9, as amended.  With every field of the satisfied field-group schemas
    present on the original request, the recovery-parameter map holds those
    fields and no others, each with the value the request has for it; with
    one of them absent, the loops raise AttributeError. *)
Theorem C9_recovery_parameter_map (r : BaseRequest) :
  ((∀ key, key ∈ Spec.mapped_keys r → hasattr r key = true) →
   ∃ params, recovery_request_params r = Returned params
             ∧ ∀ key, params !! key
                      = if bool_decide (key ∈ Spec.mapped_keys r)
                        then getattr r key else None)
  ∧ ((∃ key, key ∈ Spec.mapped_keys r ∧ hasattr r key = false) →
     ∃ msg, recovery_request_params r = Raised (AttributeError msg)).
Proof.
  unfold recovery_request_params, Spec.mapped_keys. split.
  - intros Hall.
    destruct (map_base_types_present r (get_recovery_request_type r)
                [BaseRequestAuthenticated; BaseRequestUserSpecific;
                 BaseRequestWorkerDriven] ∅ Hall) as [params [Hp Hl]].
    exists params. split; [done|]. intros key. rewrite Hl.
    by rewrite lookup_empty.
  - apply map_base_types_absent.
Qed.

(** C10, as amended.  The exit hook leaves the handler object as it was
    and prints one line exactly when an exception is in flight; it returns
    [None] or raises AttributeError, and it returns [None] exactly when no
    exception is in flight, or recovery is disabled, or the loops over the
    field groups run through.  The computed map appears in neither the
    returned value nor the state. *)
Theorem C10_exit_hook (exc_type exc_val exc_tb : option string) (s : Scope) :
  let result := __exit__ exc_type exc_val exc_tb s in
  this result.2 = this s
  ∧ stdout result.2
    = (stdout s ++ match exc_type with
                   | None => []
                   | Some _ =>
                       ["Error: " +:+ rendered exc_val +:+ ", Type: "
                        +:+ rendered exc_type +:+ ", Traceback: " +:+ rendered exc_tb]
                   end)%list
  ∧ (result.1 = Returned PyNone ∨ ∃ msg, result.1 = Raised (AttributeError msg))
  ∧ (result.1 = Returned PyNone
     ↔ exc_type = None
       ∨ is_recovery_enabled (request (this s)) = false
       ∨ ∃ params, recovery_request_params (request (this s)) = Returned params).
Proof.
  destruct s as [h out]. unfold __exit__.
  destruct exc_type as [ty|]; simpl.
  - unfold print. run.
    destruct (is_recovery_enabled (request h)) eqn:Hrec; simpl.
    + destruct (recovery_request_params (request h)) as [params|e] eqn:Hmap; simpl.
      * repeat split; eauto.
      * apply map_base_types_raises in Hmap as [msg ->].
        repeat split; eauto.
        -- intros Heq. discriminate.
        -- intros [?|[?|[? ?]]]; discriminate.
    + repeat split; eauto.
  - rewrite app_nil_r. repeat split; eauto.
Qed.

End Recovery.

(** ** Concrete runs *)
Section Examples.
Import GenericHordeAPIClient HordeRequestHandler Scenario.

(** C2 fails as stated: the template has the placeholder [{id}], the
    request has no non-null [id], and marshalling returns a Parsed Request
    whose endpoint still holds the placeholder; [get] goes on to issue the
    call. *)
Lemma C2_counterexample :
  template_fields (get_endpoint_url (api_request without_id)) = Some ["id"]
  ∧ getattr (api_request without_id) "id" = Some PyNone
  ∧ (∃ p, _validate_and_prepare_request without_id = (Returned p, without_id)
          ∧ endpoint_no_query p = "https://aihorde.net/api/v2/generate/status/{id}")
  ∧ map call_url (http_log (get status_response_class without_id).2)
    = ["https://aihorde.net/api/v2/generate/status/{id}"].
Proof.
  repeat split; try (vm_compute; reflexivity).
  eexists. split; vm_compute; reflexivity.
Qed.

Lemma C2_witness :
  (∃ e, is_format_error e = true
        ∧ _validate_and_prepare_request with_other_path = (Raised e, with_other_path)
        ∧ ∀ expected,
            submit_request expected with_other_path = (Raised e, with_other_path)
            ∧ async_submit_request expected with_other_path
              = (Raised e, with_other_path))
  ∧ ∃ p, _validate_and_prepare_request without_id = (Returned p, without_id)
         ∧ endpoint_no_query p = get_endpoint_url (api_request without_id).
Proof.
  split.
  - apply (proj1 (C2_unmatched_placeholder_fails with_other_path ltac:(reflexivity))
             ltac:(discriminate) ["id"] "id").
    + vm_compute. reflexivity.
    + apply elem_of_cons. left. reflexivity.
    + vm_compute. intros Hin. apply elem_of_cons in Hin as [Hin|Hin].
      * discriminate.
      * apply elem_of_nil in Hin. exact Hin.
  - apply (proj2 (C2_unmatched_placeholder_fails without_id ltac:(reflexivity))).
    vm_compute. reflexivity.
Defined.

Lemma C3_witness :
  (∃ msg, get status_response_class with_stray_field
          = (Raised (RuntimeError msg), with_stray_field))
  ∧ (∃ msg, async_get status_response_class with_stray_field
            = (Raised (RuntimeError msg), with_stray_field))
  ∧ (get_http_method (api_request with_stray_field) = GET →
     (∃ msg, submit_request status_response_class with_stray_field
             = (Raised (RuntimeError msg), with_stray_field))
     ∧ ∃ msg, async_submit_request status_response_class with_stray_field
              = (Raised (RuntimeError msg), with_stray_field)).
Proof.
  eapply (proj1 (C3_get_with_body_is_fatal with_stray_field status_response_class)).
  - vm_compute. reflexivity.
  - simpl. discriminate.
Defined.


Lemma C8_witness :
  (_validate_and_prepare_request generate).1
  = (_validate_and_prepare_request
       {| self := self generate; api_request := api_request generate;
          server := λ _, (500, JNull); http_log := http_log found |}).1.
Proof.
  symmetry.
  apply (proj2 (proj2 (C8_marshalling_pure_idempotent generate))); reflexivity.
Defined.

(** C4 fails as stated: on status 404 the body is an object whose only key
    is [message], and the resolver raises instead of returning an Error
    Response, because the value of [message] is a number. *)
Lemma C4_counterexample :
  len_is_1_and_has_message (JObj [("message", JInt 5)]) = Returned true
  ∧ _after_request_handling (RequestsResponse 404 (JObj [("message", JInt 5)]))
      status_response_class found
    = (Raised (ValidationError "message: Input should be a valid string"), found).
Proof. split; vm_compute; reflexivity. Qed.

Lemma C4_witness :
  _after_request_handling
    (RequestsResponse 400 (JObj [("message", JStr "invalid apikey")]))
    status_response_class found
  = (Returned (Error {| message := "invalid apikey"; object_data := None |}), found)
  ∧ _after_request_handling
      (RequestsResponse 404 (JObj [("message", JStr "x"); ("code", JStr "y")]))
      status_response_class found
    = (Raised (RuntimeError no_message_key), found)
  ∧ _after_request_handling (RequestsResponse 500 JNull) status_response_class found
    = (Raised (TypeError "object of type 'NoneType' has no len()"), found)
  ∧ _after_request_handling (RequestsResponse 400 (JArr [JStr "message"]))
      status_response_class found
    = (Raised (TypeError "argument after ** must be a mapping"), found)
  ∧ ∃ e, is_python_exception e = true
         ∧ _after_request_handling
             (RequestsResponse 404 (JObj [("message", JStr "x"); ("code", JStr "y")]))
             status_response_class found
           = (Raised e, found).
Proof.
  split; [|split; [|split; [|split]]].
  - apply (proj1 (proj2 (C4_error_reply_resolution found status_response_class 400
                           (JObj [("message", JStr "invalid apikey")]) ltac:(lia)))).
    reflexivity.
  - apply (proj1 (C4_error_reply_resolution found status_response_class 404
                    (JObj [("message", JStr "x"); ("code", JStr "y")]) ltac:(lia))).
  - apply (proj1 (C4_error_reply_resolution found status_response_class 500
                    JNull ltac:(lia))).
  - apply (proj1 (C4_error_reply_resolution found status_response_class 400
                    (JArr [JStr "message"]) ltac:(lia))).
  - apply (proj2 (proj2 (C4_error_reply_resolution found status_response_class 404
                           (JObj [("message", JStr "x"); ("code", JStr "y")])
                           ltac:(lia)))).
    intros s. discriminate.
Defined.

Lemma C5_witness :
  _after_request_handling (RequestsResponse 200 (JObj [("shared", JBool false)]))
    status_response_class found
  = (Returned (Error
       {| message := mismatch_message;
          object_data :=
            Some (Dict [("exception",
                         Caught (ValidationError "finished: Field required"));
                        ("raw_response", RawJson (JObj [("shared", JBool false)]))]) |}),
     found)
  ∧ _after_request_handling (RequestsResponse 200 status_body)
      delete_request_class found
    = (Returned (Error
         {| message := mismatch_message;
            object_data := Some (Dict [("raw_response", RawJson status_body)]) |}),
       found).
Proof.
  split.
  - apply (proj1 (C5_mismatch_is_an_error_response found status_response_class 200
                    (JObj [("shared", JBool false)]) ltac:(lia))).
    reflexivity.
  - eapply (proj2 (C5_mismatch_is_an_error_response found delete_request_class 200
                     status_body ltac:(lia))).
    + reflexivity.
    + vm_compute. reflexivity.
Defined.

(** C9 fails as stated: the recovery type satisfies the authentication
    group, whose field [apikey] the original request does not have, and the
    loops raise AttributeError instead of skipping the field. *)
Lemma C9_counterexample :
  @Spec.mapped_keys demo_models (api_request found) = ["apikey"]
  ∧ hasattr (api_request found) "apikey" = false
  ∧ @recovery_request_params demo_models (api_request found)
    = Raised (AttributeError
        "'ImageGenerateStatusRequest' object has no attribute 'apikey'").
Proof. repeat split; vm_compute; reflexivity. Qed.

Lemma C9_witness :
  (∃ params, @recovery_request_params demo_models (api_request generate)
             = Returned params
             ∧ ∀ key, params !! key
                      = if bool_decide
                             (key ∈ @Spec.mapped_keys demo_models (api_request generate))
                        then getattr (api_request generate) key else None)
  ∧ ∃ msg, @recovery_request_params demo_models (api_request found)
           = Raised (AttributeError msg).
Proof.
  split.
  - apply (proj1 (@C9_recovery_parameter_map demo_models (api_request generate))).
    intros key Hkey. vm_compute in Hkey.
    apply elem_of_cons in Hkey as [->|Hkey].
    + vm_compute. reflexivity.
    + apply elem_of_nil in Hkey. destruct Hkey.
  - apply (proj2 (@C9_recovery_parameter_map demo_models (api_request found))).
    exists "apikey". split.
    + vm_compute. apply elem_of_cons. left. reflexivity.
    + vm_compute. reflexivity.
Defined.

(** C10 fails as stated: with an exception in flight, recovery enabled and
    [apikey] absent from the request, the exit hook does not return; it
    raises AttributeError, which is what the caller then sees. *)
Lemma C10_counterexample :
  (@__exit__ demo_models (Some "<class 'RuntimeError'>") (Some "boom") None
     (scope_of (api_request found))).1
  = Raised (AttributeError
      "'ImageGenerateStatusRequest' object has no attribute 'apikey'").
Proof. vm_compute. reflexivity. Qed.

End Examples.

(** ** Where the fields of a request go *)
Section Buckets.
Import GenericHordeAPIClient Behaviour.

Lemma collect_cons (sel : string → bool) (k : string) (v : pyval)
    (items : list (string * pyval)) (init : gmap string pyval) :
  collect sel ((k, v) :: items) init
  = collect sel items (if sel k then <[k := v]> init else init).
Proof. reflexivity. Qed.

Lemma collect_dom (sel : string → bool) (items : list (string * pyval)) (k : string) :
  ∀ init : gmap string pyval,
    is_Some (collect sel items init !! k)
    ↔ is_Some (init !! k) ∨ (sel k = true ∧ k ∈ items.*1).
Proof.
  induction items as [|[k0 v0] items IH]; intros init.
  - simpl. rewrite elem_of_nil. tauto.
  - rewrite collect_cons, IH, fmap_cons, elem_of_cons. simpl.
    destruct (sel k0) eqn:Hsel.
    + rewrite lookup_insert_is_Some.
      destruct (decide (k0 = k)) as [->|Hne]; [tauto|].
      split; [intros [[?|[_ ?]]|[? ?]]|intros [?|[? [?|?]]]]; try tauto; congruence.
    + split; [tauto|]. intros [?|[? [->|?]]]; [tauto| congruence | tauto].
Qed.

Lemma collect_sound (sel : string → bool) (items : list (string * pyval))
    (k : string) (v : pyval) :
  ∀ init : gmap string pyval,
    collect sel items init !! k = Some v →
    init !! k = Some v ∨ (sel k = true ∧ (k, v) ∈ items).
Proof.
  induction items as [|[k0 v0] items IH]; intros init Hk.
  - by left.
  - rewrite collect_cons in Hk. apply IH in Hk as [Hk|[? ?]].
    + destruct (sel k0) eqn:Hsel; [|by left].
      destruct (decide (k0 = k)) as [->|Hne].
      * rewrite lookup_insert_eq in Hk. simplify_eq. right. split; [done|].
        apply elem_of_cons. by left.
      * rewrite lookup_insert_ne in Hk by done. by left.
    + right. split; [done|]. apply elem_of_cons. by right.
Qed.

Lemma collect_complete (sel : string → bool) (items : list (string * pyval))
    (k : string) (v : pyval) :
  ∀ init : gmap string pyval,
    NoDup items.*1 → (k, v) ∈ items → sel k = true →
    collect sel items init !! k = Some v.
Proof.
  induction items as [|[k0 v0] items IH]; intros init Hnd Hin Hsel.
  - by apply elem_of_nil in Hin.
  - rewrite fmap_cons in Hnd. apply NoDup_cons in Hnd as [Hfresh Hnd].
    rewrite collect_cons. apply elem_of_cons in Hin as [Heq|Hin].
    + injection Heq as <- <-. rewrite Hsel.
      destruct (collect sel items (<[k:=v]> init) !! k) as [v'|] eqn:Hlook.
      * apply collect_sound in Hlook as [Hlook|[_ Hlook]].
        -- rewrite lookup_insert_eq in Hlook. congruence.
        -- destruct Hfresh. simpl. apply list_elem_of_fmap. by exists (k, v').
      * assert (is_Some (collect sel items (<[k:=v]> init) !! k)) as [? ?].
        { apply collect_dom. left. by rewrite lookup_insert_eq. }
        congruence.
    + by apply IH.
Qed.

(** The loop fills each dictionary with the fields selected for it: the
    keys it adds to [specified_headers] on the way are extra header keys
    and change no selection. *)
Lemma classify_collects (sh sp sq : list (string * string)) (extra : list string)
    (items : list (string * pyval)) :
  ∀ b : buckets,
    (∀ k, has_key k (specified_headers b) || bool_decide (k ∈ extra)
          = has_key k sh || bool_decide (k ∈ extra)) →
    let b' := foldl (classify sp sq extra) b items in
    request_headers_dict b' = collect (to_headers sh sp extra) items (request_headers_dict b)
    ∧ request_queries_dict b'
      = collect (to_queries sh sp sq extra) items (request_queries_dict b)
    ∧ request_params_dict b'
      = collect (to_remainder sh sp sq extra) items (request_params_dict b).
Proof.
  induction items as [|[k v] items IH]; intros b Hinv; [done|].
  cbn [foldl]. rewrite !collect_cons.
  unfold to_headers at 2, to_queries at 2, to_remainder at 2.
  pose proof (Hinv k) as Hk.
  unfold classify at 2 4 6. cbn [fst snd].
  destruct (has_key k sp) eqn:Hsp; cbn [negb andb].
  { by apply IH. }
  destruct (has_key k (specified_headers b)) eqn:Hsh.
  { cbn [orb] in Hk. rewrite <- Hk. cbn [negb andb]. by apply (IH (Build_buckets _ _ _ _)). }
  case_bool_decide as Hextra.
  { rewrite orb_true_r. cbn [negb andb].
    apply (IH (Build_buckets _ _ _ _)). cbn [specified_headers]. intros k'.
    rewrite <- Hinv. apply eq_true_iff_eq.
    rewrite !orb_true_iff, !bool_decide_eq_true. unfold has_key.
    rewrite !bool_decide_eq_true, dict_set_keys.
    split; [intros [[->|?]|?]|]; tauto. }
  cbn [orb] in Hk. rewrite <- Hk. cbn [negb andb].
  destruct (has_key k sq); by apply (IH (Build_buckets _ _ _ _)).
Qed.

Lemma has_key_specified (registry : list (string * string)) (r : BaseRequest)
    (k : string) :
  has_key k (get_specified_data_keys registry r) = Spec.claimed registry r k.
Proof.
  apply eq_true_iff_eq. unfold has_key. rewrite bool_decide_eq_true.
  apply specified_keys.
Qed.

Lemma selection_placement (c : client) (r : BaseRequest) (k : string) :
  let sh := get_specified_data_keys (_header_data_keys c) r in
  let sp := get_specified_data_keys (_path_data_keys c) r in
  let sq := get_specified_data_keys (_query_data_keys c) r in
  let extra := get_header_fields r in
  (to_headers sh sp extra k = true ↔ placement_of c r k = InHeaders)
  ∧ (to_queries sh sp sq extra k = true ↔ placement_of c r k = InQueries)
  ∧ (to_remainder sh sp sq extra k = true ↔ placement_of c r k = InRemainder).
Proof.
  unfold to_headers, to_queries, to_remainder, placement_of.
  rewrite !has_key_specified.
  destruct (Spec.claimed (_path_data_keys c) r k),
    (Spec.claimed (_header_data_keys c) r k),
    (bool_decide (k ∈ get_header_fields r)),
    (Spec.claimed (_query_data_keys c) r k); simpl; repeat split; congruence.
Qed.

(** The three dictionaries of a Parsed Request, each as a collection. *)
Lemma marshal_buckets (w : World) (p : _ParsedRequest) :
  _validate_and_prepare_request w = (Returned p, w) →
  let c := self w in
  let r := api_request w in
  let sh := get_specified_data_keys (_header_data_keys c) r in
  let sp := get_specified_data_keys (_path_data_keys c) r in
  let sq := get_specified_data_keys (_query_data_keys c) r in
  let extra := get_header_fields r in
  request_headers p = collect (to_headers sh sp extra) (__dict__ r) ∅
  ∧ request_queries p = collect (to_queries sh sp sq extra) (__dict__ r) ∅
  ∧ request_params p = collect (to_remainder sh sp sq extra) (__dict__ r) ∅.
Proof.
  rewrite marshal_run. intros H.
  destruct (negb _); [discriminate|].
  destruct (substitute_paths _ _ _); [|discriminate].
  injection H as <-. cbn [request_headers request_queries request_params].
  unfold classify_all.
  by apply (classify_collects _ _ _ _ _ (Build_buckets _ _ _ _)).
Qed.

(** A key found in a dictionary has the placement of that dictionary. *)
Lemma bucket_key_placement (w : World) (p : _ParsedRequest) (pl : placement)
    (k : string) :
  _validate_and_prepare_request w = (Returned p, w) →
  is_Some (bucket p pl !! k) →
  placement_of (self w) (api_request w) k = pl.
Proof.
  intros Hp.
  destruct (marshal_buckets w p Hp) as [Hh [Hq Hr]].
  destruct (selection_placement (self w) (api_request w) k) as [Sh [Sq Sr]].
  destruct pl; cbn [bucket]; [rewrite lookup_empty; by intros [? ?]|..].
  - rewrite Hh, collect_dom, lookup_empty. intros [[? ?]|[? _]]; [done|]. by apply Sh.
  - rewrite Hq, collect_dom, lookup_empty. intros [[? ?]|[? _]]; [done|]. by apply Sq.
  - rewrite Hr, collect_dom, lookup_empty. intros [[? ?]|[? _]]; [done|]. by apply Sr.
Qed.

(** X1.  In a Parsed Request a key is in the headers, the queries or
    [request_params] exactly when it is a field of the request that the
    loop's order of tests places there, so the three dictionaries are
    pairwise disjoint; and what a dictionary holds under a key is a value
    the request has for that field. *)
Theorem buckets_by_placement (w : World) (p : _ParsedRequest) :
  _validate_and_prepare_request w = (Returned p, w) →
  ∀ (pl : placement) (k : string),
    (is_Some (bucket p pl !! k)
     ↔ pl ≠ Consumed
       ∧ k ∈ (__dict__ (api_request w)).*1
       ∧ placement_of (self w) (api_request w) k = pl)
    ∧ ∀ v, bucket p pl !! k = Some v → (k, v) ∈ __dict__ (api_request w).
Proof.
  intros Hp pl k.
  destruct (marshal_buckets w p Hp) as [Hh [Hq Hr]].
  destruct (selection_placement (self w) (api_request w) k) as [Sh [Sq Sr]].
  destruct pl; cbn [bucket].
  - split.
    + rewrite lookup_empty. split; [by intros [? ?]|]. by intros [? _].
    + intros v. by rewrite lookup_empty.
  - rewrite Hh. split.
    + rewrite collect_dom, lookup_empty, Sh. split.
      * intros [[? ?]|[? ?]]; [done|]. by repeat split.
      * intros [_ [? ?]]. by right.
    + intros v Hv. apply collect_sound in Hv as [Hv|[_ Hv]]; [|done].
      by rewrite lookup_empty in Hv.
  - rewrite Hq. split.
    + rewrite collect_dom, lookup_empty, Sq. split.
      * intros [[? ?]|[? ?]]; [done|]. by repeat split.
      * intros [_ [? ?]]. by right.
    + intros v Hv. apply collect_sound in Hv as [Hv|[_ Hv]]; [|done].
      by rewrite lookup_empty in Hv.
  - rewrite Hr. split.
    + rewrite collect_dom, lookup_empty, Sr. split.
      * intros [[? ?]|[? ?]]; [done|]. by repeat split.
      * intros [_ [? ?]]. by right.
    + intros v Hv. apply collect_sound in Hv as [Hv|[_ Hv]]; [|done].
      by rewrite lookup_empty in Hv.
Qed.

(** X2.  When the field names of the request are pairwise distinct, no
    field is lost or altered: each field that is not path-claimed is found,
    with its value, in the dictionary of its placement. *)
Theorem every_field_lands (w : World) (p : _ParsedRequest) (k : string) (v : pyval) :
  _validate_and_prepare_request w = (Returned p, w) →
  NoDup (__dict__ (api_request w)).*1 →
  (k, v) ∈ __dict__ (api_request w) →
  placement_of (self w) (api_request w) k ≠ Consumed →
  bucket p (placement_of (self w) (api_request w) k) !! k = Some v.
Proof.
  intros Hp Hnd Hin Hpl.
  destruct (marshal_buckets w p Hp) as [Hh [Hq Hr]].
  destruct (selection_placement (self w) (api_request w) k) as [Sh [Sq Sr]].
  destruct (placement_of (self w) (api_request w) k) eqn:Hk; cbn [bucket]; [done|..].
  - rewrite Hh. apply collect_complete; [done..|]. by apply Sh.
  - rewrite Hq. apply collect_complete; [done..|]. by apply Sq.
  - rewrite Hr. apply collect_complete; [done..|]. by apply Sr.
Qed.

Lemma marshal_body_spec (w : World) (p : _ParsedRequest) :
  _validate_and_prepare_request w = (Returned p, w) →
  request_body p = Spec.body (self w) (api_request w).
Proof.
  rewrite marshal_run. intros H.
  destruct (negb _); [discriminate|].
  destruct (substitute_paths _ _ _); [|discriminate].
  injection H as <-. apply body_data_spec.
Qed.

(** The body has the names of the remainder, in its order. *)
Lemma body_keys (w : World) (p : _ParsedRequest) (items : list (string * pyval)) :
  _validate_and_prepare_request w = (Returned p, w) →
  request_body p = Some items →
  items.*1 = (Spec.remainder (self w) (api_request w)).*1.
Proof.
  intros Hp Hbody.
  rewrite (marshal_body_spec w p Hp) in Hbody. unfold Spec.body in Hbody.
  destruct (Spec.remainder _ _) as [|item rest] eqn:Hrem; [discriminate|].
  injection Hbody as <-. exact (dumped_keys (api_request w) (item :: rest)).
Qed.

(** X3.  A path-claimed field is used for the URL only: it is a key of none
    of the three dictionaries and no field of the body. *)
Theorem path_claimed_is_consumed (w : World) (p : _ParsedRequest) (k : string) :
  _validate_and_prepare_request w = (Returned p, w) →
  Spec.claimed (_path_data_keys (self w)) (api_request w) k = true →
  request_headers p !! k = None
  ∧ request_queries p !! k = None
  ∧ request_params p !! k = None
  ∧ ∀ items, request_body p = Some items → k ∉ items.*1.
Proof.
  intros Hp Hk.
  assert (placement_of (self w) (api_request w) k = Consumed) as Hpl
    by (unfold placement_of; by rewrite Hk).
  assert (∀ pl, pl ≠ Consumed → bucket p pl !! k = None) as Hnone.
  { intros pl Hne. apply eq_None_not_Some. intros Hsome.
    apply (bucket_key_placement w p pl k Hp) in Hsome. congruence. }
  repeat split; try (by apply (Hnone InHeaders) || by apply (Hnone InQueries)
                     || by apply (Hnone InRemainder)).
  intros items Hbody Hin.
  rewrite (body_keys w p items Hp Hbody) in Hin.
  apply list_elem_of_fmap in Hin as [[k' v'] [-> Hin]].
  apply list_elem_of_In, filter_In in Hin as [_ Hin]. cbn [fst snd] in *.
  rewrite Hk, orb_true_r in Hin. simpl in Hin. by rewrite andb_false_r in Hin.
Qed.

(** X4.  With pairwise distinct field names, every field of the body is
    also a key of [request_params]: there the request's own value of the
    field is kept, of which the body holds the dumped form; and the field
    is a key of neither the headers nor the queries. *)
Theorem body_fields_in_request_params (w : World) (p : _ParsedRequest)
    (items : list (string * pyval)) (k : string) (v : pyval) :
  _validate_and_prepare_request w = (Returned p, w) →
  NoDup (__dict__ (api_request w)).*1 →
  request_body p = Some items →
  (k, v) ∈ items →
  (∃ raw, (k, raw) ∈ __dict__ (api_request w)
          ∧ request_params p !! k = Some raw
          ∧ v = serialize_field (api_request w) true true k raw)
  ∧ request_headers p !! k = None
  ∧ request_queries p !! k = None.
Proof.
  intros Hp Hnd Hbody Hin.
  rewrite (marshal_body_spec w p Hp) in Hbody. unfold Spec.body in Hbody.
  destruct (Spec.remainder _ _) as [|item rest] eqn:Hrem; [discriminate|].
  assert (items = Spec.dumped (api_request w) (item :: rest)) as ->
    by (by injection Hbody).
  rewrite <- Hrem in Hin. unfold Spec.dumped in Hin.
  apply list_elem_of_In, in_map_iff in Hin as [[k' raw] [Heq Hin]].
  cbn [fst snd] in Heq. injection Heq as -> <-.
  apply filter_In in Hin as [Hin Hpred]. cbn [fst snd] in Hpred.
  apply andb_true_iff in Hpred as [_ Hpred]. apply negb_true_iff in Hpred.
  repeat (apply orb_false_iff in Hpred as [Hpred ?]).
  assert (placement_of (self w) (api_request w) k = InRemainder) as Hpl.
  { unfold placement_of.
    repeat match goal with Hx : _ = false |- _ => rewrite Hx; clear Hx end. done. }
  destruct (marshal_buckets w p Hp) as [_ [_ Hr]].
  destruct (selection_placement (self w) (api_request w) k) as [_ [_ Sr]].
  apply list_elem_of_In in Hin.
  split.
  - exists raw. split; [done|]. split; [|done].
    rewrite Hr. apply collect_complete; [done| done | by apply Sr].
  - split; apply eq_None_not_Some; intros Hsome.
    + apply (bucket_key_placement w p InHeaders k Hp) in Hsome. congruence.
    + apply (bucket_key_placement w p InQueries k Hp) in Hsome. congruence.
Qed.

Lemma assoc_NoDup {V : Type} (items : list (string * V)) (k : string) (v : V) :
  NoDup items.*1 → (k, v) ∈ items → assoc k items = Some v.
Proof.
  induction items as [|[k0 v0] items IH]; intros Hnd Hin.
  - by apply elem_of_nil in Hin.
  - rewrite fmap_cons in Hnd. apply NoDup_cons in Hnd as [Hfresh Hnd].
    cbn [assoc]. apply elem_of_cons in Hin as [Heq|Hin].
    + injection Heq as <- <-. by rewrite String.eqb_refl.
    + destruct (String.eqb_spec k k0) as [->|_]; [|by apply IH].
      destruct Hfresh. apply list_elem_of_fmap. by exists (k0, v).
Qed.

(** X14.  A field whose value is [None] is claimed by no registry.  Unless
    the request names it as an extra header field, it is not sent at all:
    it is a key of neither the headers nor the queries and no field of the
    body, and is kept, with [None], in [request_params] only.  So an
    [apikey] left at [None] silently drops the header. *)
Theorem none_valued_field_is_not_sent (w : World) (p : _ParsedRequest) (k : string) :
  _validate_and_prepare_request w = (Returned p, w) →
  NoDup (__dict__ (api_request w)).*1 →
  (k, PyNone) ∈ __dict__ (api_request w) →
  k ∉ get_header_fields (api_request w) →
  request_headers p !! k = None
  ∧ request_queries p !! k = None
  ∧ request_params p !! k = Some PyNone
  ∧ ∀ items, request_body p = Some items → k ∉ items.*1.
Proof.
  intros Hp Hnd Hin Hextra.
  assert (∀ registry, Spec.claimed registry (api_request w) k = false) as Hclaimed.
  { intros registry. unfold Spec.claimed, getattr.
    rewrite (assoc_NoDup _ k PyNone Hnd Hin). by rewrite andb_false_r. }
  assert (placement_of (self w) (api_request w) k = InRemainder) as Hpl.
  { unfold placement_of. rewrite !Hclaimed.
    by rewrite (bool_decide_eq_false_2 _ Hextra). }
  destruct (marshal_buckets w p Hp) as [_ [_ Hr]].
  destruct (selection_placement (self w) (api_request w) k) as [_ [_ Sr]].
  split; [|split; [|split]].
  - apply eq_None_not_Some. intros Hsome.
    apply (bucket_key_placement w p InHeaders k Hp) in Hsome. congruence.
  - apply eq_None_not_Some. intros Hsome.
    apply (bucket_key_placement w p InQueries k Hp) in Hsome. congruence.
  - rewrite Hr. apply collect_complete; [done..|]. by apply Sr.
  - intros items Hbody Hk.
    rewrite (body_keys w p items Hp Hbody) in Hk.
    apply list_elem_of_fmap in Hk as [[k' v'] [Heq Hk]]. cbn [fst] in Heq. subst k'.
    apply list_elem_of_In, filter_In in Hk as [Hk Hpred]. cbn [fst snd] in Hpred.
    apply list_elem_of_In in Hk.
    assert (v' = PyNone) as ->.
    { pose proof (assoc_NoDup _ k v' Hnd Hk) as H1.
      pose proof (assoc_NoDup _ k PyNone Hnd Hin) as H2. congruence. }
    discriminate.
Qed.

(** Stripping the last character of a string that ends in an underscore
    gives another string. *)
Lemma drop_last_differs (k : string) :
  endswith_underscore k = true → drop_last k ≠ k.
Proof.
  induction k as [|c k IH]; [discriminate|].
  destruct k as [|c' k]; [discriminate|].
  intros Hsuffix Heq. apply IH; [exact Hsuffix|].
  cbn [drop_last] in Heq. by injection Heq.
Qed.

(** C6, at its failing inputs.  Take a request with pairwise distinct field
    names that marshals, and a field of it that is declared as an extra
    header field, ends in an underscore and is not path-claimed.  The
    headers of the Parsed Request hold the value of the field under the
    field's own name, suffix included.  The stripped name is another key:
    what the headers hold under it, if anything, is the value of a field of
    the request that has the stripped name as its own name, so without
    such a field the headers have no entry under the stripped name. *)
Theorem C6_extra_header_keeps_its_suffix (w : World) (p : _ParsedRequest)
    (k : string) (v : pyval) :
  _validate_and_prepare_request w = (Returned p, w) →
  NoDup (__dict__ (api_request w)).*1 →
  (k, v) ∈ __dict__ (api_request w) →
  k ∈ get_header_fields (api_request w) →
  endswith_underscore k = true →
  Spec.claimed (_path_data_keys (self w)) (api_request w) k = false →
  request_headers p !! k = Some v
  ∧ drop_last k ≠ k
  ∧ (∀ v', request_headers p !! drop_last k = Some v' →
           (drop_last k, v') ∈ __dict__ (api_request w))
  ∧ (drop_last k ∉ (__dict__ (api_request w)).*1 →
     request_headers p !! drop_last k = None).
Proof.
  intros Hp Hnd Hin Hextra Hsuffix Hpath.
  destruct (marshal_buckets w p Hp) as [Hh _].
  destruct (selection_placement (self w) (api_request w) k) as [Sh _].
  assert (∀ v', request_headers p !! drop_last k = Some v' →
                (drop_last k, v') ∈ __dict__ (api_request w)) as Hother.
  { intros v' Hlook. rewrite Hh in Hlook.
    apply collect_sound in Hlook as [Hlook|[_ Hlook]]; [|done].
    by rewrite lookup_empty in Hlook. }
  split; [|split; [by apply drop_last_differs|split; [done|]]].
  - rewrite Hh. apply collect_complete; [done..|]. apply Sh.
    unfold placement_of. rewrite Hpath.
    by rewrite (bool_decide_eq_true_2 _ Hextra), orb_true_r.
  - intros Hfresh.
    destruct (request_headers p !! drop_last k) as [v'|] eqn:Hlook; [|done].
    destruct Hfresh. apply list_elem_of_fmap. exists (drop_last k, v').
    split; [done|]. by apply Hother.
Qed.

End Buckets.

(** ** Path substitution *)
Section Paths.
Import GenericHordeAPIClient Behaviour.












Lemma specified_is_Some (registry : list (string * string)) (r : BaseRequest)
    (py api : string) :
  In (py, api) (get_specified_data_keys registry r) → is_Some (getattr r py).
Proof.
  intros Hin. destruct (specified_has_value registry r py api Hin) as [v [-> _]].
  by eexists.
Qed.



(** X16.  Only the first claimed path field, in the order of the path
    registry, is ever substituted: when marshalling returns with a path
    field claimed, every placeholder of the template bears the wire name of
    that first field. *)
Theorem only_first_claimed_path_is_substituted (w : World) (p : _ParsedRequest)
    (py api : string) (rest : list (string * string)) (fs : list string) :
  _validate_and_prepare_request w = (Returned p, w) →
  get_specified_data_keys (_path_data_keys (self w)) (api_request w)
  = (py, api) :: rest →
  template_fields (get_endpoint_url (api_request w)) = Some fs →
  ∀ f, f ∈ fs → f = api.
Proof.
  intros Hp Hsp Hfs f Hin.
  destruct (decide (f = api)) as [|Hne]; [done|]. exfalso.
  rewrite marshal_run, Hsp in Hp.
  destruct (negb _); [discriminate|].
  destruct (specified_has_value (_path_data_keys (self w)) (api_request w) py api)
    as [v [Hv _]]; [rewrite Hsp; by left|].
  cbn [substitute_paths] in Hp. rewrite Hv in Hp.
  destruct (format_map_missing_field (get_endpoint_url (api_request w)) api
              (py_str v) fs f Hfs Hin Hne) as [e [He _]].
  rewrite He in Hp. discriminate.
Qed.

Ltac length_lia :=
  repeat match goal with
    | H : context [String.length (String _ _)] |- _ => rewrite length_String in H
    end;
  rewrite ?length_String; lia.

Lemma prepend_inl (pre : string) (x : PyExc + string) (e : PyExc) :
  prepend pre x = inl e → x = inl e.
Proof. destruct x; simpl; congruence. Qed.

(** The scanner raises KeyError or ValueError, or leaves the model. *)
Lemma scan_raises (m : gmap string string) (n : nat) :
  ∀ (s : string) (md : mode) (e : PyExc),
    (String.length s ≤ n)%nat →
    scan m md s = inl e →
    is_format_error e = true ∨ ∃ what, e = Unsupported what.
Proof.
  induction n as [n IH] using lt_wf_ind.
  intros s md e Hlen Hscan.
  destruct md as [|name]; destruct s as [|c rest]; cbn [scan] in Hscan;
    try discriminate.
  - destruct (Ascii.eqb c "{").
    + destruct rest as [|c2 rest2]; [injection Hscan as <-; by left|].
      destruct (Ascii.eqb c2 "{").
      * apply prepend_inl in Hscan.
        by apply (IH (String.length rest2) ltac:(length_lia) rest2 InText e ltac:(length_lia)).
      * by apply (IH (String.length (String c2 rest2)) ltac:(length_lia)
                    (String c2 rest2) (InField "") e ltac:(length_lia)).
    + destruct (Ascii.eqb c "}").
      * destruct rest as [|c2 rest2]; [injection Hscan as <-; by left|].
        destruct (Ascii.eqb c2 "}"); [|injection Hscan as <-; by left].
        apply prepend_inl in Hscan.
        by apply (IH (String.length rest2) ltac:(length_lia) rest2 InText e ltac:(length_lia)).
      * apply prepend_inl in Hscan.
        by apply (IH (String.length rest) ltac:(length_lia) rest InText e ltac:(length_lia)).
  - injection Hscan as <-. by left.
  - destruct (Ascii.eqb c "}").
    + destruct (positional name); [injection Hscan as <-; by left|].
      destruct (m !! name); [|injection Hscan as <-; by left].
      apply prepend_inl in Hscan.
      by apply (IH (String.length rest) ltac:(length_lia) rest InText e ltac:(length_lia)).
    + destruct (Ascii.eqb c "{"); [injection Hscan as <-; by left|].
      destruct (starts_suffix c); [injection Hscan as <-; right; eauto|].
      by apply (IH (String.length rest) ltac:(length_lia) rest
                  (InField (name +:+ one c)) e ltac:(length_lia)).
Qed.

Lemma substitute_paths_raises (r : BaseRequest)
    (specified_paths : list (string * string)) (e : PyExc) :
  (∀ py api, In (py, api) specified_paths → is_Some (getattr r py)) →
  ∀ url, substitute_paths r specified_paths url = Raised e →
         is_format_error e = true ∨ ∃ what, e = Unsupported what.
Proof.
  induction specified_paths as [|[py api] rest IH]; intros Hattr url Hraise;
    [discriminate|].
  cbn [substitute_paths] in Hraise.
  destruct (Hattr py api ltac:(by left)) as [v Hv]. rewrite Hv in Hraise.
  destruct (format_map url {[api := py_str v]}) as [e'|url'] eqn:Hfmt.
  - injection Hraise as <-.
    by apply (scan_raises {[api := py_str v]} (String.length url) url InText e').
  - apply (IH ltac:(intros py' api' Hin; apply (Hattr py' api'); by right) url' Hraise).
Qed.

(** X7.  How marshalling can fail.  An object whose class does not derive
    from BaseRequest is refused with TypeError before anything else is
    looked at; a request without a claimed path field is always
    marshalled, its endpoint being the template as it stands; and whatever
    the marshaller raises is that TypeError or, with a path field claimed,
    an error of the formatting step. *)
Theorem marshal_failure_modes (w : World) :
  let r := api_request w in
  let sp := get_specified_data_keys (_path_data_keys (self w)) r in
  (issubclass (request_class r) BaseRequest_class = false →
   _validate_and_prepare_request w
   = (Raised (TypeError "`request` must be of type `BaseRequest` or a subclass of it!"), w))
  ∧ (issubclass (request_class r) BaseRequest_class = true → sp = [] →
     ∃ p, _validate_and_prepare_request w = (Returned p, w)
          ∧ endpoint_no_query p = get_endpoint_url r)
  ∧ (∀ e w', _validate_and_prepare_request w = (Raised e, w') →
       w' = w
       ∧ ((issubclass (request_class r) BaseRequest_class = false
           ∧ e = TypeError "`request` must be of type `BaseRequest` or a subclass of it!")
          ∨ (issubclass (request_class r) BaseRequest_class = true
             ∧ sp ≠ []
             ∧ (is_format_error e = true ∨ ∃ what, e = Unsupported what)))).
Proof.
  intros r sp. subst r sp. rewrite marshal_run.
  destruct (issubclass _ _) eqn:Hcls; cbn [negb].
  - split; [done|]. split.
    + intros _ ->. cbn [substitute_paths]. eexists. split; reflexivity.
    + intros e w' Hraise.
      destruct (substitute_paths _ _ _) as [url|e'] eqn:Hsub; [discriminate|].
      injection Hraise as <- <-. split; [done|]. right. split; [done|].
      split; [intros Hnil; by rewrite Hnil in Hsub|].
      eapply substitute_paths_raises; [|exact Hsub].
      intros py api Hin. by eapply specified_is_Some.
  - split; [done|]. split; [done|].
    intros e w' Hraise. injection Hraise as <- <-. split; [done|]. by left.
Qed.

End Paths.

(** ** Dispatch *)
Section Dispatch.
Import GenericHordeAPIClient Behaviour.

Lemma sync_verb_run (w : World) (p : _ParsedRequest) (m : HTTPMethod)
    (expected : PyClass) :
  _validate_and_prepare_request w = (Returned p, w) →
  (m = GET → request_body p = None) →
  method_of m expected w
  = _after_request_handling
      (RequestsResponse (server w (call_of Requests m p)).1
                        (server w (call_of Requests m p)).2)
      expected (logged w (call_of Requests m p)).
Proof.
  intros Hp Hget.
  destruct m; cbn [method_of];
    unfold get, post, put, patch, delete, sync_with_body, requests_call, send;
    run; rewrite Hp; [rewrite (Hget eq_refl)|..]; reflexivity.
Qed.

Lemma async_verb_run (w : World) (p : _ParsedRequest) (m : HTTPMethod)
    (expected : PyClass) :
  _validate_and_prepare_request w = (Returned p, w) →
  (m = GET → request_body p = None) →
  async_method_of m expected w
  = (Raised (AttributeError
       ("'" +:+ type_name (server w (call_of Aiohttp m p)).2
            +:+ "' object has no attribute 'json'")),
     logged w (call_of Aiohttp m p)).
Proof.
  intros Hp Hget.
  destruct m; cbn [async_method_of];
    unfold async_get, async_post, async_put, async_patch, async_delete,
      async_with_body, aiohttp_call_json, send, _after_request_handling;
    run; rewrite Hp; [rewrite (Hget eq_refl)|..]; reflexivity.
Qed.

Lemma get_refuses_body (w : World) (p : _ParsedRequest) (expected : PyClass)
    (items : list (string * pyval)) :
  _validate_and_prepare_request w = (Returned p, w) →
  request_body p = Some items →
  (get expected w).2 = w ∧ (async_get expected w).2 = w.
Proof.
  intros Hp Hbody. unfold get, async_get. run. by rewrite Hp, Hbody.
Qed.

Lemma marshal_frame (w : World) :
  ∃ o, _validate_and_prepare_request w = (o, w).
Proof. rewrite marshal_run. by eexists. Qed.

(** X8.  A blocking verb method composes the three steps: for a request
    that marshals to [p] (without a body if the verb is GET) it issues one
    call through [requests], carrying the endpoint, headers and queries of
    [p], the body of [p] as [json] unless the verb is GET, and
    [allow_redirects], and its result is the resolver's on the reply to
    that call. *)
Theorem sync_verb_composes (w : World) (p : _ParsedRequest) (m : HTTPMethod)
    (expected : PyClass) :
  _validate_and_prepare_request w = (Returned p, w) →
  (m = GET → request_body p = None) →
  let c := call_of Requests m p in
  method_of m expected w
  = _after_request_handling (RequestsResponse (server w c).1 (server w c).2)
      expected (logged w c)
  ∧ http_log (method_of m expected w).2 = (http_log w ++ [c])%list.
Proof.
  intros Hp Hget c. subst c.
  rewrite (sync_verb_run w p m expected Hp Hget).
  split; [reflexivity|]. by rewrite resolver_frame.
Qed.

(** X9.  A non-blocking verb method, for the same request, does issue its
    call through [aiohttp], with the same parts, and then raises
    AttributeError: the request reaches the service and the reply is
    lost. *)
Theorem async_verb_sends_then_raises (w : World) (p : _ParsedRequest)
    (m : HTTPMethod) (expected : PyClass) :
  _validate_and_prepare_request w = (Returned p, w) →
  (m = GET → request_body p = None) →
  let c := call_of Aiohttp m p in
  (async_method_of m expected w).1
  = Raised (AttributeError
      ("'" +:+ type_name (server w c).2 +:+ "' object has no attribute 'json'"))
  ∧ http_log (async_method_of m expected w).2 = (http_log w ++ [c])%list.
Proof.
  intros Hp Hget c. subst c.
  rewrite (async_verb_run w p m expected Hp Hget).
  split; reflexivity.
Qed.

(** X10.  No verb method, blocking or not, changes the client, the request
    or the service, and none issues more than one call: there is no retry
    and no second request, whatever the outcome. *)
Theorem verbs_issue_at_most_one_call (w : World) (m : HTTPMethod)
    (expected : PyClass) :
  at_most_one_call Requests m w (method_of m expected w).2
  ∧ at_most_one_call Aiohttp m w (async_method_of m expected w).2.
Proof.
  assert (∀ via, at_most_one_call via m w w) as Hsame.
  { intros via. do 3 (split; [reflexivity|]). by left. }
  assert (∀ via p, at_most_one_call via m w (logged w (call_of via m p))) as Hone.
  { intros via p. do 3 (split; [reflexivity|]). right. eexists. by repeat split. }
  destruct (marshal_frame w) as [[p|e] Hp].
  - assert ((m = GET → request_body p = None) →
            at_most_one_call Requests m w (method_of m expected w).2
            ∧ at_most_one_call Aiohttp m w (async_method_of m expected w).2) as Hrun.
    { intros Hget.
      rewrite (sync_verb_run w p m expected Hp Hget), resolver_frame.
      rewrite (async_verb_run w p m expected Hp Hget). cbn [snd]. by split. }
    destruct (request_body p) as [items|] eqn:Hitems; [|by apply Hrun].
    destruct m; try (apply Hrun; discriminate).
    destruct (get_refuses_body w p expected items Hp Hitems) as [Hs Ha].
    cbn [method_of async_method_of]. rewrite Hs, Ha. by split.
  - destruct (marshal_raise_propagates w e expected Hp) as [Hs Ha].
    rewrite Hs, Ha. by split.
Qed.

End Dispatch.

(** ** The resolver, branch by branch *)
Section Resolver.
Import GenericHordeAPIClient Behaviour.

(** Status 400 and above: the shape test, the unpacking and the
    constructor decide; the expected type and the schema are not looked at. *)
Lemma error_branch (w : World) (expected : PyClass) (status : Z) (body : json) :
  400 ≤ status →
  _after_request_handling (RequestsResponse status body) expected w
  = (match len_is_1_and_has_message body with
     | Raised e => Raised e
     | Returned false => Raised (RuntimeError no_message_key)
     | Returned true =>
         match unpack_kwargs body with
         | Raised e => Raised e
         | Returned kwargs =>
             match RequestErrorResponse_kwargs kwargs with
             | Raised e => Raised e
             | Returned e => Returned (Error e)
             end
         end
     end, w).
Proof.
  intros Hstatus. apply Z.leb_le in Hstatus.
  unfold _after_request_handling. run. rewrite Hstatus.
  destruct (len_is_1_and_has_message body) as [[|]|]; [|done..].
  destruct (unpack_kwargs body); [|done].
  by destruct (RequestErrorResponse_kwargs _).
Qed.

(** Status below 400: the parser of the request's success type and the
    instance test decide. *)
Lemma success_branch (w : World) (expected : PyClass) (status : Z) (body : json) :
  status < 400 →
  _after_request_handling (RequestsResponse status body) expected w
  = (match from_dict_or_array (get_success_response_type (api_request w)) body with
     | Returned o =>
         if isinstance o expected then Returned (Success o)
         else Returned (Error
                {| message := mismatch_message;
                   object_data := Some (Dict [("raw_response", RawJson body)]) |})
     | Raised (ValidationError d) =>
         Returned (Error
           {| message := mismatch_message;
              object_data :=
                Some (Dict [("exception", Caught (ValidationError d));
                            ("raw_response", RawJson body)]) |})
     | Raised e => Raised e
     end, w).
Proof.
  intros Hstatus. apply Z.leb_gt in Hstatus.
  unfold _after_request_handling. run. rewrite Hstatus.
  destruct (from_dict_or_array _ body) as [o|[]]; try done.
  by destruct (isinstance o expected).
Qed.

(** A body that passes the shape test and unpacks is an object with the
    single key [message]. *)
Lemma single_message_shape (body : json) (kwargs : list (string * json)) :
  len_is_1_and_has_message body = Returned true →
  unpack_kwargs body = Returned kwargs →
  ∃ v, body = JObj [("message", v)] ∧ kwargs = [("message", v)].
Proof.
  intros Hshape Hunpack. destruct body; try discriminate.
  injection Hunpack as <-.
  destruct items as [|[k v] [|kv items]]; try discriminate.
  unfold len_is_1_and_has_message in Hshape. cbn in Hshape.
  injection Hshape as Hkey. apply single_message_key in Hkey as ->. eauto.
Qed.

(** X11.  The resolver returns a success value in one case only: the reply
    came as a [requests.Response] with a status below 400, the schema's
    parser accepted the body, and the parsed object is an instance of the
    expected class; the state is then unchanged. *)
Theorem success_exactly_when_parsed (w w' : World) (expected : PyClass)
    (raw : RawResponse) (o : PyObj) :
  _after_request_handling raw expected w = (Returned (Success o), w')
  ↔ ∃ status body,
      raw = RequestsResponse status body
      ∧ status < 400
      ∧ from_dict_or_array (get_success_response_type (api_request w)) body
        = Returned o
      ∧ isinstance o expected = true
      ∧ w' = w.
Proof.
  split.
  - destruct raw as [status body|body].
    + destruct (Z.lt_ge_cases status 400) as [Hlt|Hge].
      * rewrite (success_branch w expected status body Hlt).
        destruct (from_dict_or_array _ body) as [o'|[]] eqn:Hparse;
          try discriminate.
        destruct (isinstance o' expected) eqn:Hinst; [|discriminate].
        intros Heq. injection Heq as <- <-. by exists status, body.
      * rewrite (error_branch w expected status body Hge).
        destruct (len_is_1_and_has_message body) as [[|]|]; try discriminate.
        destruct (unpack_kwargs body); [|discriminate].
        destruct (RequestErrorResponse_kwargs _); discriminate.
    + unfold _after_request_handling. run. discriminate.
  - intros [status [body [-> [Hlt [Hparse [Hinst ->]]]]]].
    by rewrite (success_branch w expected status body Hlt), Hparse, Hinst.
Qed.

(** X12.  An Error Response tells where it comes from.  One returned on a
    status of 400 or more carries the [message] string of the body and no
    [object_data]; one returned on a status below 400 carries the fixed
    mismatch message and, in [object_data], the raw body. *)
Theorem error_response_provenance (w w' : World) (expected : PyClass)
    (status : Z) (body : json) (e : RequestErrorResponse) :
  _after_request_handling (RequestsResponse status body) expected w
  = (Returned (Error e), w') →
  (400 ≤ status
   ∧ body = JObj [("message", JStr (message e))]
   ∧ object_data e = None)
  ∨ (status < 400
     ∧ message e = mismatch_message
     ∧ mismatch_payload body (object_data e)).
Proof.
  destruct (Z.lt_ge_cases status 400) as [Hlt|Hge].
  - rewrite (success_branch w expected status body Hlt). intros Heq. right.
    split; [done|]. unfold mismatch_payload.
    destruct (from_dict_or_array _ body) as [o|[]]; try discriminate.
    + destruct (isinstance o expected); [discriminate|].
      injection Heq as <- _. split; [done|]. by left.
    + injection Heq as <- _. split; [done|]. right. by eexists.
  - rewrite (error_branch w expected status body Hge). intros Heq. left.
    split; [done|].
    destruct (len_is_1_and_has_message body) as [[|]|] eqn:Hshape; try discriminate.
    destruct (unpack_kwargs body) as [kwargs|] eqn:Hunpack; [|discriminate].
    destruct (single_message_shape body kwargs Hshape Hunpack) as [v [-> ->]].
    unfold RequestErrorResponse_kwargs in Heq. cbn in Heq.
    destruct v; try discriminate. by injection Heq as <- _.
Qed.

(** X13.  On a status of 400 or more the outcome is a function of the body
    alone: neither the expected class, nor the request and its success
    type, nor anything else in the state has a say. *)
Theorem error_status_ignores_schema (w w' : World) (expected expected' : PyClass)
    (status status' : Z) (body : json) :
  400 ≤ status → 400 ≤ status' →
  (_after_request_handling (RequestsResponse status body) expected w).1
  = (_after_request_handling (RequestsResponse status' body) expected' w').1.
Proof.
  intros Hge Hge'.
  by rewrite (error_branch w expected status body Hge),
    (error_branch w' expected' status' body Hge').
Qed.

(** X15.  Only a validation error of the parser is turned into an Error
    Response: any other exception it raises on a status below 400 leaves
    the resolver as it is. *)
Theorem other_parser_errors_propagate (w : World) (expected : PyClass)
    (status : Z) (body : json) (e : PyExc) :
  status < 400 →
  from_dict_or_array (get_success_response_type (api_request w)) body = Raised e →
  (∀ d, e ≠ ValidationError d) →
  _after_request_handling (RequestsResponse status body) expected w = (Raised e, w).
Proof.
  intros Hlt Hparse Hother.
  rewrite (success_branch w expected status body Hlt), Hparse.
  destruct e; try reflexivity. by destruct (Hother diagnostic).
Qed.

(** The outcome of the resolver depends on the request of the state, not
    on the calls logged so far. *)
Lemma resolver_reads_request (raw : RawResponse) (expected : PyClass) (w w' : World) :
  api_request w' = api_request w →
  (_after_request_handling raw expected w').1
  = (_after_request_handling raw expected w).1.
Proof.
  intros Hr. unfold _after_request_handling. run. rewrite Hr.
  repeat match goal with
         | |- context [match ?t with _ => _ end] => destruct t; simpl; try done
         end.
Qed.

(** C1, at its failing inputs.  Take any verb, a request that marshals
    (without a body if the verb is GET) and a service that answers the
    blocking and the non-blocking call with the same status and body.  The
    blocking method gives the resolver's outcome on that reply.  The
    non-blocking method raises AttributeError, because it hands the
    resolver the decoded body where the resolver expects the response
    object: whatever the blocking method returns, the non-blocking one
    does not return it.  So on a status of 400 or more and a body that is
    an object with the single key [message] and a string [s] for it, the
    blocking method returns the Error Response with the message [s] and
    the non-blocking one raises; and on a status below 400 and a body the
    schema's parser accepts as an instance of the expected class, the
    blocking method returns the parsed response and the non-blocking one
    raises. *)
Theorem C1_async_raises_where_sync_returns (w : World) (p : _ParsedRequest)
    (m : HTTPMethod) (expected : PyClass) (status : Z) (body : json) :
  _validate_and_prepare_request w = (Returned p, w) →
  (m = GET → request_body p = None) →
  server w (call_of Requests m p) = (status, body) →
  server w (call_of Aiohttp m p) = (status, body) →
  (method_of m expected w).1
  = (_after_request_handling (RequestsResponse status body) expected w).1
  ∧ (async_method_of m expected w).1
    = Raised (AttributeError
        ("'" +:+ type_name body +:+ "' object has no attribute 'json'"))
  ∧ (∀ r, (method_of m expected w).1 = Returned r →
          (async_method_of m expected w).1 ≠ Returned r)
  ∧ (∀ s, 400 ≤ status → body = JObj [("message", JStr s)] →
          (method_of m expected w).1
          = Returned (Error {| message := s; object_data := None |})
          ∧ (async_method_of m expected w).1
            = Raised (AttributeError "'dict' object has no attribute 'json'"))
  ∧ (∀ o, status < 400 →
          from_dict_or_array (get_success_response_type (api_request w)) body
          = Returned o →
          isinstance o expected = true →
          (method_of m expected w).1 = Returned (Success o)
          ∧ ∃ what, (async_method_of m expected w).1 = Raised (AttributeError what)).
Proof.
  intros Hp Hget Hsync Hasync.
  assert ((method_of m expected w).1
          = (_after_request_handling (RequestsResponse status body) expected w).1)
    as Hblocking.
  { rewrite (sync_verb_run w p m expected Hp Hget), Hsync. cbn [fst snd].
    by apply resolver_reads_request. }
  assert ((async_method_of m expected w).1
          = Raised (AttributeError
              ("'" +:+ type_name body +:+ "' object has no attribute 'json'")))
    as Hnonblocking.
  { by rewrite (async_verb_run w p m expected Hp Hget), Hasync. }
  split; [done|]. split; [done|]. split; [|split].
  - intros r _. by rewrite Hnonblocking.
  - intros s Hstatus ->. split; [|done].
    rewrite Hblocking, (error_branch w expected status _ Hstatus). reflexivity.
  - intros o Hstatus Hparsed Hinst. split; [|by eexists].
    rewrite Hblocking, (success_branch w expected status body Hstatus).
    cbn [fst]. by rewrite Hparsed, Hinst.
Qed.

End Resolver.

(** ** Further concrete runs *)
Section Runs.
Import GenericHordeAPIClient Behaviour Scenario.

Lemma buckets_by_placement_witness :
  (is_Some (bucket (parsed generate) InHeaders !! "apikey")
   ↔ InHeaders ≠ Consumed
     ∧ "apikey" ∈ (__dict__ (api_request generate)).*1
     ∧ placement_of (self generate) (api_request generate) "apikey" = InHeaders)
  ∧ ∀ v, bucket (parsed generate) InHeaders !! "apikey" = Some v →
         ("apikey", v) ∈ __dict__ (api_request generate).
Proof.
  apply (buckets_by_placement generate (parsed generate)).
  vm_compute. reflexivity.
Defined.

Lemma every_field_lands_witness :
  bucket (parsed generate)
         (placement_of (self generate) (api_request generate) "prompt") !! "prompt"
  = Some (PyStr "a cat in a hat").
Proof.
  apply (every_field_lands generate (parsed generate) "prompt" (PyStr "a cat in a hat")).
  - vm_compute. reflexivity.
  - apply (bool_decide_unpack _). vm_compute. exact I.
  - vm_compute. repeat constructor.
  - vm_compute. discriminate.
Defined.

Lemma path_claimed_is_consumed_witness :
  request_headers (parsed found) !! "id" = None
  ∧ request_queries (parsed found) !! "id" = None
  ∧ request_params (parsed found) !! "id" = None
  ∧ ∀ items, request_body (parsed found) = Some items → "id" ∉ items.*1.
Proof.
  apply (path_claimed_is_consumed found (parsed found) "id").
  - vm_compute. reflexivity.
  - vm_compute. reflexivity.
Defined.

Lemma body_fields_in_request_params_witness :
  (∃ raw, ("params", raw) ∈ __dict__ (api_request nested)
          ∧ request_params (parsed nested) !! "params" = Some raw
          ∧ PyOther "{'n': 2}"
            = serialize_field (api_request nested) true true "params" raw)
  ∧ request_headers (parsed nested) !! "params" = None
  ∧ request_queries (parsed nested) !! "params" = None.
Proof.
  apply (body_fields_in_request_params nested (parsed nested)
           [("prompt", PyStr "a cat in a hat"); ("params", PyOther "{'n': 2}")]).
  - vm_compute. reflexivity.
  - apply (bool_decide_unpack _). vm_compute. exact I.
  - vm_compute. reflexivity.
  - repeat constructor.
Defined.

Lemma none_valued_field_is_not_sent_witness :
  request_headers (parsed without_key) !! "apikey" = None
  ∧ request_queries (parsed without_key) !! "apikey" = None
  ∧ request_params (parsed without_key) !! "apikey" = Some PyNone
  ∧ ∀ items, request_body (parsed without_key) = Some items → "apikey" ∉ items.*1.
Proof.
  apply (none_valued_field_is_not_sent without_key (parsed without_key) "apikey").
  - vm_compute. reflexivity.
  - apply (bool_decide_unpack _). vm_compute. exact I.
  - vm_compute. repeat constructor.
  - apply (bool_decide_unpack _). vm_compute. exact I.
Defined.



Lemma marshal_failure_modes_witness :
  _validate_and_prepare_request foreign
  = (Raised (TypeError "`request` must be of type `BaseRequest` or a subclass of it!"),
     foreign)
  ∧ (∃ p, _validate_and_prepare_request without_id = (Returned p, without_id)
          ∧ endpoint_no_query p = get_endpoint_url (api_request without_id))
  ∧ is_format_error (KeyError "id") = true.
Proof.
  split; [|split].
  - apply (proj1 (marshal_failure_modes foreign)). vm_compute. reflexivity.
  - apply (proj1 (proj2 (marshal_failure_modes without_id))); vm_compute; reflexivity.
  - destruct (proj2 (proj2 (marshal_failure_modes with_other_path))
                (KeyError "id") with_other_path) as [_ [[Hcls _]|[_ [_ [Hfmt|[what Hu]]]]]].
    + vm_compute. reflexivity.
    + vm_compute in Hcls. discriminate.
    + exact Hfmt.
    + discriminate.
Defined.

Lemma sync_verb_composes_witness :
  post status_response_class generate
  = _after_request_handling
      (RequestsResponse
         (server generate (call_of Requests POST (parsed generate))).1
         (server generate (call_of Requests POST (parsed generate))).2)
      status_response_class
      (logged generate (call_of Requests POST (parsed generate)))
  ∧ http_log (post status_response_class generate).2
    = (http_log generate ++ [call_of Requests POST (parsed generate)])%list.
Proof.
  apply (sync_verb_composes generate (parsed generate) POST status_response_class).
  - vm_compute. reflexivity.
  - discriminate.
Defined.

Lemma async_verb_sends_then_raises_witness :
  (async_delete status_response_class found).1
  = Raised (AttributeError
      ("'" +:+ type_name (server found (call_of Aiohttp DELETE (parsed found))).2
           +:+ "' object has no attribute 'json'"))
  ∧ http_log (async_delete status_response_class found).2
    = (http_log found ++ [call_of Aiohttp DELETE (parsed found)])%list.
Proof.
  apply (async_verb_sends_then_raises found (parsed found) DELETE status_response_class).
  - vm_compute. reflexivity.
  - discriminate.
Defined.

Lemma error_response_provenance_witness :
  (400 ≤ 403
   ∧ JObj [("message", JStr "forbidden")]
     = JObj [("message", JStr (message {| message := "forbidden"; object_data := None |}))]
   ∧ object_data {| message := "forbidden"; object_data := None |} = None)
  ∨ (403 < 400
     ∧ message {| message := "forbidden"; object_data := None |} = mismatch_message
     ∧ mismatch_payload (JObj [("message", JStr "forbidden")])
         (object_data {| message := "forbidden"; object_data := None |})).
Proof.
  apply (error_response_provenance found found status_response_class 403
           (JObj [("message", JStr "forbidden")])
           {| message := "forbidden"; object_data := None |}).
  vm_compute. reflexivity.
Defined.

Lemma error_status_ignores_schema_witness :
  (_after_request_handling (RequestsResponse 404 (JObj [("message", JStr "gone")]))
     status_response_class found).1
  = (_after_request_handling (RequestsResponse 500 (JObj [("message", JStr "gone")]))
       delete_request_class generate).1.
Proof.
  apply (error_status_ignores_schema found generate status_response_class
           delete_request_class 404 500); lia.
Defined.

Lemma success_exactly_when_parsed_witness :
  _after_request_handling (RequestsResponse 200 status_body)
    status_response_class found
  = (Returned (Success {| obj_class := status_response_class;
                          obj_data := status_body |}), found).
Proof.
  apply (proj2 (success_exactly_when_parsed found found status_response_class
                  (RequestsResponse 200 status_body)
                  {| obj_class := status_response_class;
                     obj_data := status_body |})).
  exists 200, status_body.
  repeat split; reflexivity.
Defined.

Lemma other_parser_errors_propagate_witness :
  _after_request_handling (RequestsResponse 200 (JInt 3)) status_response_class strict
  = (Raised (TypeError "argument after ** must be a mapping"), strict).
Proof.
  apply (other_parser_errors_propagate strict status_response_class 200 (JInt 3)).
  - lia.
  - reflexivity.
  - intros d. discriminate.
Defined.

Lemma only_first_claimed_path_is_substituted_witness :
  (_path_data_keys (self found)) !! 0%nat = Some ("id", "id")
  ∧ "id" = "id".
Proof.
  split; [reflexivity|].
  apply (only_first_claimed_path_is_substituted found (parsed found) "id" "id" []
           ["id"]).
  - vm_compute. reflexivity.
  - vm_compute. reflexivity.
  - vm_compute. reflexivity.
  - repeat constructor.
Defined.

Lemma C1_witness :
  ((post status_response_class refused).1
   = Returned (Error {| message := "invalid apikey"; object_data := None |})
   ∧ (async_post status_response_class refused).1
     = Raised (AttributeError "'dict' object has no attribute 'json'"))
  ∧ (get status_response_class finished).1
    = Returned (Success {| obj_class := status_response_class;
                           obj_data := status_body |})
  ∧ (async_get status_response_class finished).1
    = Raised (AttributeError "'dict' object has no attribute 'json'").
Proof.
  split; [|split].
  - apply (proj1 (proj2 (proj2 (proj2
             (C1_async_raises_where_sync_returns refused (parsed refused) POST
                status_response_class 400 (JObj [("message", JStr "invalid apikey")])
                ltac:(vm_compute; reflexivity) ltac:(discriminate)
                ltac:(reflexivity) ltac:(reflexivity)))))
             "invalid apikey" ltac:(lia) ltac:(reflexivity)).
  - apply (proj2 (proj2 (proj2 (proj2
             (C1_async_raises_where_sync_returns finished (parsed finished) GET
                status_response_class 200 status_body
                ltac:(vm_compute; reflexivity) ltac:(reflexivity)
                ltac:(reflexivity) ltac:(reflexivity)))))
             {| obj_class := status_response_class; obj_data := status_body |}
             ltac:(lia) ltac:(reflexivity) ltac:(reflexivity)).
  - apply (proj1 (proj2
             (C1_async_raises_where_sync_returns finished (parsed finished) GET
                status_response_class 200 status_body
                ltac:(vm_compute; reflexivity) ltac:(reflexivity)
                ltac:(reflexivity) ltac:(reflexivity)))).
Defined.

Lemma C6_witness :
  request_headers (parsed with_extra_header) !! "from_" = Some (PyStr "ops@example.org")
  ∧ drop_last "from_" = "from"
  ∧ request_headers (parsed with_extra_header) !! "from" = None.
Proof.
  split; [|split; [reflexivity|]].
  - apply (C6_extra_header_keeps_its_suffix with_extra_header (parsed with_extra_header)
             "from_" (PyStr "ops@example.org")).
    + vm_compute. reflexivity.
    + apply (bool_decide_unpack _). vm_compute. exact I.
    + vm_compute. repeat constructor.
    + vm_compute. repeat constructor.
    + reflexivity.
    + vm_compute. reflexivity.
  - apply (proj2 (proj2 (proj2
             (C6_extra_header_keeps_its_suffix with_extra_header
                (parsed with_extra_header) "from_" (PyStr "ops@example.org")
                ltac:(vm_compute; reflexivity)
                ltac:(apply (bool_decide_unpack _); vm_compute; exact I)
                ltac:(vm_compute; repeat constructor)
                ltac:(vm_compute; repeat constructor)
                ltac:(reflexivity) ltac:(vm_compute; reflexivity))))).
    apply (bool_decide_unpack _). vm_compute. exact I.
Defined.

End Runs.
